(** * Mars-X physics core: vectors, rigid bodies, collisions, Matrix4

    A shallow embedding of the Cython modules of [mars_x/cython_modules]
    and the properties their specification states about them.

    A C [double] is a primitive binary64 float of the kernel: [+], [-],
    [*], [/] and [sqrt] round to nearest-even exactly as the compiled
    code does, and the comparisons are the IEEE ones ([nan] compares
    false with everything, [-0 = +0]).  Decimal constants of the source
    ([1e-10], [0.0001], [0.999], ...) are read with the same rounding as
    the C and Python parsers use.  The model has one NaN: the sign and
    the payload that a NaN carries on the hardware are not part of
    it. *)

From Stdlib Require Import ZArith Floats List Bool Lia.
From Stdlib Require Import Setoid Morphisms.
Import ListNotations.
Set Warnings "-inexact-float".

(* ================================================================= *)
(** * Part I: the program *)
(* ================================================================= *)

(** ** Doubles, their bit patterns, and the exceptions the code raises *)

Module Double.
Open Scope float_scope.

(** [M_PI] of <math.h>: the double nearest to pi. *)
Definition M_PI : float := 0x1.921fb54442d18p+1.

Definition sign_bit (s : bool) : Z := if s then 0x8000000000000000%Z else 0%Z.

(** [memcpy(&i, &y, sizeof(double))]: the 64 bits of a double, read as
    an unsigned integer.  A NaN is given its canonical quiet pattern
    (the payload of a NaN is not observable in the kernel's floats). *)
Definition bits_of_double (f : float) : Z :=
  match Prim2SF f with
  | S754_zero s => sign_bit s
  | S754_infinity s => (sign_bit s + 0x7FF0000000000000)%Z
  | S754_nan => 0x7FF8000000000000%Z
  | S754_finite s m e =>
      (sign_bit s +
       (if Zpos m <? 0x10000000000000 then Zpos m
        else (e + 1075) * 0x10000000000000 + (Zpos m - 0x10000000000000)))%Z
  end.

(** [memcpy(&y, &i, sizeof(double))]: the double with the given 64 bits. *)
Definition double_of_bits (b : Z) : float :=
  let s := Z.testbit b 63 in
  let e := Z.land (Z.shiftr b 52) 0x7FF in
  let m := Z.land b 0xFFFFFFFFFFFFF in
  if (e =? 0)%Z then
    match m with
    | Zpos p => SF2Prim (S754_finite s p (-1074))
    | _ => SF2Prim (S754_zero s)
    end
  else if (e =? 0x7FF)%Z then
    if (m =? 0)%Z then SF2Prim (S754_infinity s) else nan
  else
    match (m + 0x10000000000000)%Z with
    | Zpos p => SF2Prim (S754_finite s p (e - 1075))
    | _ => nan
    end.

(** Arithmetic on [uint64_t] wraps modulo 2^64. *)
Definition wrap64 (z : Z) : Z := (z mod 0x10000000000000000)%Z.
End Double.

(** The exceptions raised by the modules. *)
Inductive exn : Type :=
  | ZeroDivisionError
  | ValueError.

(** The outcome of a Python-level operator: a value, the [NotImplemented]
    singleton, or a raised exception. *)
Inductive outcome (A : Type) : Type :=
  | Returned (a : A)
  | NotImplemented
  | Raised (e : exn).
Arguments Returned {A} a.
Arguments NotImplemented {A}.
Arguments Raised {A} e.

(** The right-hand operand of an overloaded operator, as the
    [isinstance] tests of the source see it: a number, an object of the
    operator's own class, or anything else. *)
Inductive operand (N V : Type) : Type :=
  | Number (s : N)
  | Same (v : V)
  | Other.
Arguments Number {N V} s.
Arguments Same {N V} v.
Arguments Other {N V}.

(** ** Vector value types (vector.pxd) *)

(** The C structs [Vec2], [Vec3], [Vec4]. *)
Module Vec2.
Record t : Type := mk { x : float; y : float }.
End Vec2.
Module Vec3.
Record t : Type := mk { x : float; y : float; z : float }.
End Vec3.
Module Vec4.
Record t : Type := mk { x : float; y : float; z : float; w : float }.
End Vec4.

(** The fields of the extension classes [Vector2], [Vector3], [Vector4]. *)
Module Vector2.
Record t : Type := mk { x : float; y : float }.
End Vector2.
Module Vector3.
Record t : Type := mk { x : float; y : float; z : float }.
End Vector3.
Module Vector4.
Record t : Type := mk { x : float; y : float; z : float; w : float }.
End Vector4.

(** The Newton-Raphson refinement of an inverse square root, in the
    words of the specification: [y = y * (1.5 - 0.5 * x * y * y)]. *)
Definition newton_raphson_step (x y : float) : float :=
  (y * (1.5 - 0.5 * x * y * y))%float.

(** ** vector.pyx, the draft with the bit-level inverse square root *)

Module Fast.
Open Scope float_scope.
Import Double.

Definition magic_number : Z := 0x5FE6EB50C7B537A9%Z.

Definition fast_invsqrt (x : float) : float :=
  if x <=? 0 then 0
  else
    let half_x := x * 0.5 in
    let y := x in
    let i := bits_of_double y in
    let i := wrap64 (magic_number - Z.shiftr i 1) in
    let y := double_of_bits i in
    let y := y * (1.5 - (half_x * y * y)) in
    let y := y * (1.5 - (half_x * y * y)) in
    y.

Definition fast_sqrt (x : float) : float :=
  if x <=? 0 then 0 else x * fast_invsqrt x.

Definition vec2_div (v : Vec2.t) (scalar : float) : Vec2.t :=
  if scalar =? 0 then Vec2.mk 0 0
  else Vec2.mk (Vec2.x v / scalar) (Vec2.y v / scalar).

Definition vec2_length_squared (v : Vec2.t) : float :=
  Vec2.x v * Vec2.x v + Vec2.y v * Vec2.y v.

Definition vec2_normalize (v : Vec2.t) : Vec2.t :=
  let len_sq := Vec2.x v * Vec2.x v + Vec2.y v * Vec2.y v in
  if 1e-10 <? len_sq then
    let inv_len := fast_invsqrt len_sq in
    Vec2.mk (Vec2.x v * inv_len) (Vec2.y v * inv_len)
  else Vec2.mk 0 0.

Definition vec3_div (v : Vec3.t) (scalar : float) : Vec3.t :=
  if scalar =? 0 then Vec3.mk 0 0 0
  else Vec3.mk (Vec3.x v / scalar) (Vec3.y v / scalar) (Vec3.z v / scalar).

Definition vec3_length_squared (v : Vec3.t) : float :=
  Vec3.x v * Vec3.x v + Vec3.y v * Vec3.y v + Vec3.z v * Vec3.z v.

Definition vec3_normalize (v : Vec3.t) : Vec3.t :=
  let len_sq := Vec3.x v * Vec3.x v + Vec3.y v * Vec3.y v + Vec3.z v * Vec3.z v in
  if 1e-10 <? len_sq then
    let inv_len := fast_invsqrt len_sq in
    Vec3.mk (Vec3.x v * inv_len) (Vec3.y v * inv_len) (Vec3.z v * inv_len)
  else Vec3.mk 0 0 0.

Definition vec4_div (v : Vec4.t) (scalar : float) : Vec4.t :=
  if scalar =? 0 then Vec4.mk 0 0 0 0
  else Vec4.mk (Vec4.x v / scalar) (Vec4.y v / scalar)
               (Vec4.z v / scalar) (Vec4.w v / scalar).

Definition vec4_length_squared (v : Vec4.t) : float :=
  Vec4.x v * Vec4.x v + Vec4.y v * Vec4.y v + Vec4.z v * Vec4.z v
  + Vec4.w v * Vec4.w v.

Definition vec4_normalize (v : Vec4.t) : Vec4.t :=
  let len_sq := Vec4.x v * Vec4.x v + Vec4.y v * Vec4.y v + Vec4.z v * Vec4.z v
                + Vec4.w v * Vec4.w v in
  if 1e-10 <? len_sq then
    let inv_len := fast_invsqrt len_sq in
    Vec4.mk (Vec4.x v * inv_len) (Vec4.y v * inv_len)
            (Vec4.z v * inv_len) (Vec4.w v * inv_len)
  else Vec4.mk 0 0 0 0.

(** The other struct-level operations of the draft. *)
Definition vec2_create (x y : float) : Vec2.t := Vec2.mk x y.


Definition vec2_sub (a b : Vec2.t) : Vec2.t :=
  Vec2.mk (Vec2.x a - Vec2.x b) (Vec2.y a - Vec2.y b).

Definition vec2_mul (v : Vec2.t) (scalar : float) : Vec2.t :=
  Vec2.mk (Vec2.x v * scalar) (Vec2.y v * scalar).

Definition vec2_copy (v : Vec2.t) : Vec2.t := Vec2.mk (Vec2.x v) (Vec2.y v).


Definition vec2_cross (a b : Vec2.t) : float :=
  Vec2.x a * Vec2.y b - Vec2.y a * Vec2.x b.

Definition vec2_is_zero (v : Vec2.t) : bool :=
  (Vec2.x v * Vec2.x v + Vec2.y v * Vec2.y v) <? 1e-10.

Definition vec2_approx_equal (a b : Vec2.t) (epsilon : float) : bool :=
  let dx := Vec2.x a - Vec2.x b in
  let dy := Vec2.y a - Vec2.y b in
  (dx * dx + dy * dy) <? epsilon * epsilon.

Definition vec3_create (x y z : float) : Vec3.t := Vec3.mk x y z.


Definition vec3_sub (a b : Vec3.t) : Vec3.t :=
  Vec3.mk (Vec3.x a - Vec3.x b) (Vec3.y a - Vec3.y b) (Vec3.z a - Vec3.z b).

Definition vec3_mul (v : Vec3.t) (scalar : float) : Vec3.t :=
  Vec3.mk (Vec3.x v * scalar) (Vec3.y v * scalar) (Vec3.z v * scalar).


Definition vec3_cross (a b : Vec3.t) : Vec3.t :=
  Vec3.mk (Vec3.y a * Vec3.z b - Vec3.z a * Vec3.y b)
          (Vec3.z a * Vec3.x b - Vec3.x a * Vec3.z b)
          (Vec3.x a * Vec3.y b - Vec3.y a * Vec3.x b).

Definition vec3_copy (v : Vec3.t) : Vec3.t :=
  Vec3.mk (Vec3.x v) (Vec3.y v) (Vec3.z v).

Definition vec4_create (x y z w : float) : Vec4.t := Vec4.mk x y z w.


Definition vec4_sub (a b : Vec4.t) : Vec4.t :=
  Vec4.mk (Vec4.x a - Vec4.x b) (Vec4.y a - Vec4.y b)
          (Vec4.z a - Vec4.z b) (Vec4.w a - Vec4.w b).

Definition vec4_mul (v : Vec4.t) (scalar : float) : Vec4.t :=
  Vec4.mk (Vec4.x v * scalar) (Vec4.y v * scalar)
          (Vec4.z v * scalar) (Vec4.w v * scalar).


Definition vec4_copy (v : Vec4.t) : Vec4.t :=
  Vec4.mk (Vec4.x v) (Vec4.y v) (Vec4.z v) (Vec4.w v).

(** [if v.w != 0: ... / v.w  else: ...] *)
Definition vec4_to_vec3 (v : Vec4.t) : Vec3.t :=
  if Vec4.w v =? 0 then Vec3.mk (Vec4.x v) (Vec4.y v) (Vec4.z v)
  else Vec3.mk (Vec4.x v / Vec4.w v) (Vec4.y v / Vec4.w v) (Vec4.z v / Vec4.w v).

Module Vector2.
(** [__truediv__(Vector2 self, double scalar)] *)
Definition __truediv__ (self : Vector2.t) (scalar : float) : outcome Vector2.t :=
  if scalar =? 0 then Raised ZeroDivisionError
  else Returned (Vector2.mk (Vector2.x self / scalar) (Vector2.y self / scalar)).

Definition length_squared (self : Vector2.t) : float :=
  Vector2.x self * Vector2.x self + Vector2.y self * Vector2.y self.

Definition normalize (self : Vector2.t) : Vector2.t :=
  let len_sq := length_squared self in
  if 1e-10 <? len_sq then
    let inv_len := fast_invsqrt len_sq in
    Vector2.mk (Vector2.x self * inv_len) (Vector2.y self * inv_len)
  else Vector2.mk 0 0.

Definition __add__ (self other : Vector2.t) : Vector2.t :=
  Vector2.mk (Vector2.x self + Vector2.x other) (Vector2.y self + Vector2.y other).

Definition __sub__ (self other : Vector2.t) : Vector2.t :=
  Vector2.mk (Vector2.x self - Vector2.x other) (Vector2.y self - Vector2.y other).

Definition __mul__ (self : Vector2.t) (scalar : float) : Vector2.t :=
  Vector2.mk (Vector2.x self * scalar) (Vector2.y self * scalar).

Definition __neg__ (self : Vector2.t) : Vector2.t :=
  Vector2.mk (- Vector2.x self) (- Vector2.y self).

Definition copy (self : Vector2.t) : Vector2.t :=
  Vector2.mk (Vector2.x self) (Vector2.y self).

Definition dot (self other : Vector2.t) : float :=
  Vector2.x self * Vector2.x other + Vector2.y self * Vector2.y other.

Definition cross (self other : Vector2.t) : float :=
  Vector2.x self * Vector2.y other - Vector2.y self * Vector2.x other.

Definition is_zero (self : Vector2.t) : bool :=
  length_squared self <? 1e-10.
End Vector2.

Module Vector3.
(** The division of one component by the matching component of a
    vector operand: [a / b if b != 0 else 0]. *)
Definition div_or_zero (a b : float) : float :=
  if b =? 0 then 0 else a / b.

Definition __truediv__ (self : Vector3.t) (value : operand float Vector3.t)
  : outcome Vector3.t :=
  match value with
  | Number value =>
      if value =? 0 then Raised ZeroDivisionError
      else Returned (Vector3.mk (Vector3.x self / value) (Vector3.y self / value)
                                (Vector3.z self / value))
  | Same value =>
      Returned (Vector3.mk (div_or_zero (Vector3.x self) (Vector3.x value))
                           (div_or_zero (Vector3.y self) (Vector3.y value))
                           (div_or_zero (Vector3.z self) (Vector3.z value)))
  | Other => NotImplemented
  end.

Definition length_squared (self : Vector3.t) : float :=
  Vector3.x self * Vector3.x self + Vector3.y self * Vector3.y self
  + Vector3.z self * Vector3.z self.

Definition normalize (self : Vector3.t) : Vector3.t :=
  let len_sq := length_squared self in
  if 1e-10 <? len_sq then
    let inv_len := fast_invsqrt len_sq in
    Vector3.mk (Vector3.x self * inv_len) (Vector3.y self * inv_len)
               (Vector3.z self * inv_len)
  else Vector3.mk 0 0 0.

Definition __add__ (self other : Vector3.t) : Vector3.t :=
  Vector3.mk (Vector3.x self + Vector3.x other) (Vector3.y self + Vector3.y other)
             (Vector3.z self + Vector3.z other).

Definition __sub__ (self other : Vector3.t) : Vector3.t :=
  Vector3.mk (Vector3.x self - Vector3.x other) (Vector3.y self - Vector3.y other)
             (Vector3.z self - Vector3.z other).

Definition __mul__ (self : Vector3.t) (value : operand float Vector3.t)
  : outcome Vector3.t :=
  match value with
  | Number value =>
      Returned (Vector3.mk (Vector3.x self * value) (Vector3.y self * value)
                           (Vector3.z self * value))
  | Same value =>
      Returned (Vector3.mk (Vector3.x self * Vector3.x value)
                           (Vector3.y self * Vector3.y value)
                           (Vector3.z self * Vector3.z value))
  | Other => NotImplemented
  end.

Definition dot (self other : Vector3.t) : float :=
  Vector3.x self * Vector3.x other + Vector3.y self * Vector3.y other
  + Vector3.z self * Vector3.z other.

Definition cross (self other : Vector3.t) : Vector3.t :=
  Vector3.mk (Vector3.y self * Vector3.z other - Vector3.z self * Vector3.y other)
             (Vector3.z self * Vector3.x other - Vector3.x self * Vector3.z other)
             (Vector3.x self * Vector3.y other - Vector3.y self * Vector3.x other).

Definition copy (self : Vector3.t) : Vector3.t :=
  Vector3.mk (Vector3.x self) (Vector3.y self) (Vector3.z self).
End Vector3.

Module Vector4.
Definition div_or_zero (a b : float) : float :=
  if b =? 0 then 0 else a / b.

Definition __truediv__ (self : Vector4.t) (value : operand float Vector4.t)
  : outcome Vector4.t :=
  match value with
  | Number value =>
      if value =? 0 then Raised ZeroDivisionError
      else Returned (Vector4.mk (Vector4.x self / value) (Vector4.y self / value)
                                (Vector4.z self / value) (Vector4.w self / value))
  | Same value =>
      Returned (Vector4.mk (div_or_zero (Vector4.x self) (Vector4.x value))
                           (div_or_zero (Vector4.y self) (Vector4.y value))
                           (div_or_zero (Vector4.z self) (Vector4.z value))
                           (div_or_zero (Vector4.w self) (Vector4.w value)))
  | Other => NotImplemented
  end.

Definition length_squared (self : Vector4.t) : float :=
  Vector4.x self * Vector4.x self + Vector4.y self * Vector4.y self
  + Vector4.z self * Vector4.z self + Vector4.w self * Vector4.w self.

Definition normalize (self : Vector4.t) : Vector4.t :=
  let len_sq := length_squared self in
  if 1e-10 <? len_sq then
    let inv_len := fast_invsqrt len_sq in
    Vector4.mk (Vector4.x self * inv_len) (Vector4.y self * inv_len)
               (Vector4.z self * inv_len) (Vector4.w self * inv_len)
  else Vector4.mk 0 0 0 0.

Definition __add__ (self other : Vector4.t) : Vector4.t :=
  Vector4.mk (Vector4.x self + Vector4.x other) (Vector4.y self + Vector4.y other)
             (Vector4.z self + Vector4.z other) (Vector4.w self + Vector4.w other).

Definition __sub__ (self other : Vector4.t) : Vector4.t :=
  Vector4.mk (Vector4.x self - Vector4.x other) (Vector4.y self - Vector4.y other)
             (Vector4.z self - Vector4.z other) (Vector4.w self - Vector4.w other).

Definition __mul__ (self : Vector4.t) (value : operand float Vector4.t)
  : outcome Vector4.t :=
  match value with
  | Number value =>
      Returned (Vector4.mk (Vector4.x self * value) (Vector4.y self * value)
                           (Vector4.z self * value) (Vector4.w self * value))
  | Same value =>
      Returned (Vector4.mk (Vector4.x self * Vector4.x value)
                           (Vector4.y self * Vector4.y value)
                           (Vector4.z self * Vector4.z value)
                           (Vector4.w self * Vector4.w value))
  | Other => NotImplemented
  end.

Definition dot (self other : Vector4.t) : float :=
  Vector4.x self * Vector4.x other + Vector4.y self * Vector4.y other
  + Vector4.z self * Vector4.z other + Vector4.w self * Vector4.w other.

Definition copy (self : Vector4.t) : Vector4.t :=
  Vector4.mk (Vector4.x self) (Vector4.y self) (Vector4.z self) (Vector4.w self).

Definition to_vector3 (self : Vector4.t) : Vector3.t :=
  if Vector4.w self =? 0
  then Vector3.mk (Vector4.x self) (Vector4.y self) (Vector4.z self)
  else Vector3.mk (Vector4.x self / Vector4.w self) (Vector4.y self / Vector4.w self)
                  (Vector4.z self / Vector4.w self).
End Vector4.
End Fast.

(** ** vector.pyx, the draft with the division-based inverse square root *)

Module Newton.
Open Scope float_scope.

Definition fast_invsqrt (x : float) : float :=
  if x <=? 0 then 0
  else
    let y := 1.0 / sqrt x in
    let y := y * (1.5 - 0.5 * x * y * y) in
    y.

Module Vector2.
Definition length_squared (self : Vector2.t) : float :=
  Vector2.x self * Vector2.x self + Vector2.y self * Vector2.y self.

Definition normalize (self : Vector2.t) : Vector2.t :=
  let len_sq := length_squared self in
  if 1e-10 <? len_sq then
    let inv_len := fast_invsqrt len_sq in
    Vector2.mk (Vector2.x self * inv_len) (Vector2.y self * inv_len)
  else Vector2.mk 0 0.
End Vector2.

Module Vector3.
Definition length_squared (self : Vector3.t) : float :=
  Vector3.x self * Vector3.x self + Vector3.y self * Vector3.y self
  + Vector3.z self * Vector3.z self.

Definition normalize (self : Vector3.t) : Vector3.t :=
  let len_sq := length_squared self in
  if 1e-10 <? len_sq then
    let inv_len := fast_invsqrt len_sq in
    Vector3.mk (Vector3.x self * inv_len) (Vector3.y self * inv_len)
               (Vector3.z self * inv_len)
  else Vector3.mk 0 0 0.
End Vector3.

Module Vector4.
Definition length_squared (self : Vector4.t) : float :=
  Vector4.x self * Vector4.x self + Vector4.y self * Vector4.y self
  + Vector4.z self * Vector4.z self + Vector4.w self * Vector4.w self.

Definition normalize (self : Vector4.t) : Vector4.t :=
  let len_sq := length_squared self in
  if 1e-10 <? len_sq then
    let inv_len := fast_invsqrt len_sq in
    Vector4.mk (Vector4.x self * inv_len) (Vector4.y self * inv_len)
               (Vector4.z self * inv_len) (Vector4.w self * inv_len)
  else Vector4.mk 0 0 0 0.
End Vector4.
End Newton.

(** ** vector.pyx, the draft on the platform's square root *)

Module Exact.
Open Scope float_scope.

(** A division compiled without [cdivision]: a zero divisor raises. *)
Definition checked_div (a b : float) : exn + float :=
  if b =? 0 then inl ZeroDivisionError else inr (a / b).

Module Vector2.
Definition __truediv__ (self : Vector2.t) (value : operand float Vector2.t)
  : outcome Vector2.t :=
  match value with
  | Number value =>
      match checked_div (Vector2.x self) value, checked_div (Vector2.y self) value with
      | inr qx, inr qy => Returned (Vector2.mk qx qy)
      | inl e, _ | _, inl e => Raised e
      end
  | Same value =>
      match checked_div (Vector2.x self) (Vector2.x value),
            checked_div (Vector2.y self) (Vector2.y value) with
      | inr qx, inr qy => Returned (Vector2.mk qx qy)
      | inl e, _ | _, inl e => Raised e
      end
  | Other => NotImplemented
  end.

Definition length (self : Vector2.t) : float :=
  sqrt (Vector2.x self * Vector2.x self + Vector2.y self * Vector2.y self).

Definition normalize (self : Vector2.t) : Vector2.t :=
  let len_val := length self in
  if 0 <? len_val then
    Vector2.mk (Vector2.x self / len_val) (Vector2.y self / len_val)
  else Vector2.mk 0 0.

Definition dot (self other : Vector2.t) : float :=
  Vector2.x self * Vector2.x other + Vector2.y self * Vector2.y other.

(** [Vector2.distance(a, b)], a static method. *)
Definition distance (a b : Vector2.t) : float :=
  let dx := Vector2.x b - Vector2.x a in
  let dy := Vector2.y b - Vector2.y a in
  sqrt (dx * dx + dy * dy).
End Vector2.

Module Vector3.
Definition __truediv__ (self : Vector3.t) (value : operand float Vector3.t)
  : outcome Vector3.t :=
  match value with
  | Number value =>
      match checked_div (Vector3.x self) value, checked_div (Vector3.y self) value,
            checked_div (Vector3.z self) value with
      | inr qx, inr qy, inr qz => Returned (Vector3.mk qx qy qz)
      | inl e, _, _ | _, inl e, _ | _, _, inl e => Raised e
      end
  | Same value =>
      match checked_div (Vector3.x self) (Vector3.x value),
            checked_div (Vector3.y self) (Vector3.y value),
            checked_div (Vector3.z self) (Vector3.z value) with
      | inr qx, inr qy, inr qz => Returned (Vector3.mk qx qy qz)
      | inl e, _, _ | _, inl e, _ | _, _, inl e => Raised e
      end
  | Other => NotImplemented
  end.

Definition length (self : Vector3.t) : float :=
  sqrt (Vector3.x self * Vector3.x self + Vector3.y self * Vector3.y self
        + Vector3.z self * Vector3.z self).

Definition normalize (self : Vector3.t) : Vector3.t :=
  let len_val := length self in
  if 0 <? len_val then
    Vector3.mk (Vector3.x self / len_val) (Vector3.y self / len_val)
               (Vector3.z self / len_val)
  else Vector3.mk 0 0 0.

Definition dot (self other : Vector3.t) : float :=
  Vector3.x self * Vector3.x other + Vector3.y self * Vector3.y other
  + Vector3.z self * Vector3.z other.

Definition cross (self other : Vector3.t) : Vector3.t :=
  Vector3.mk (Vector3.y self * Vector3.z other - Vector3.z self * Vector3.y other)
             (Vector3.z self * Vector3.x other - Vector3.x self * Vector3.z other)
             (Vector3.x self * Vector3.y other - Vector3.y self * Vector3.x other).

Definition distance (a b : Vector3.t) : float :=
  let dx := Vector3.x b - Vector3.x a in
  let dy := Vector3.y b - Vector3.y a in
  let dz := Vector3.z b - Vector3.z a in
  sqrt (dx * dx + dy * dy + dz * dz).
End Vector3.

Module Vector4.
Definition __truediv__ (self : Vector4.t) (value : operand float Vector4.t)
  : outcome Vector4.t :=
  match value with
  | Number value =>
      match checked_div (Vector4.x self) value, checked_div (Vector4.y self) value,
            checked_div (Vector4.z self) value, checked_div (Vector4.w self) value with
      | inr qx, inr qy, inr qz, inr qw => Returned (Vector4.mk qx qy qz qw)
      | inl e, _, _, _ | _, inl e, _, _ | _, _, inl e, _ | _, _, _, inl e => Raised e
      end
  | Same value =>
      match checked_div (Vector4.x self) (Vector4.x value),
            checked_div (Vector4.y self) (Vector4.y value),
            checked_div (Vector4.z self) (Vector4.z value),
            checked_div (Vector4.w self) (Vector4.w value) with
      | inr qx, inr qy, inr qz, inr qw => Returned (Vector4.mk qx qy qz qw)
      | inl e, _, _, _ | _, inl e, _, _ | _, _, inl e, _ | _, _, _, inl e => Raised e
      end
  | Other => NotImplemented
  end.

Definition length (self : Vector4.t) : float :=
  sqrt (Vector4.x self * Vector4.x self + Vector4.y self * Vector4.y self
        + Vector4.z self * Vector4.z self + Vector4.w self * Vector4.w self).

Definition normalize (self : Vector4.t) : Vector4.t :=
  let len_val := length self in
  if 0 <? len_val then
    Vector4.mk (Vector4.x self / len_val) (Vector4.y self / len_val)
               (Vector4.z self / len_val) (Vector4.w self / len_val)
  else Vector4.mk 0 0 0 0.

Definition dot (self other : Vector4.t) : float :=
  Vector4.x self * Vector4.x other + Vector4.y self * Vector4.y other
  + Vector4.z self * Vector4.z other + Vector4.w self * Vector4.w other.

Definition distance (a b : Vector4.t) : float :=
  let dx := Vector4.x b - Vector4.x a in
  let dy := Vector4.y b - Vector4.y a in
  let dz := Vector4.z b - Vector4.z a in
  let dw := Vector4.w b - Vector4.w a in
  sqrt (dx * dx + dy * dy + dz * dz + dw * dw).
End Vector4.
End Exact.

(** ** rigidbody.pyx: entities, forces and torques *)

Module Rigidbody.
Open Scope float_scope.
Import Double.

Record Entity : Type := mkEntity {
  x : float;
  y : float;
  vx : float;
  vy : float;
  mass : float;
  rotation : float;
  active : bool;
  radius : float
}.

(** [Entity.__init__] *)
Definition new_Entity : Entity := mkEntity 0 0 0 0 1 0 true 0.

(** In-place assignments to the fields of an entity. *)
Definition set_position (e : Entity) (x' y' : float) : Entity :=
  mkEntity x' y' (vx e) (vy e) (mass e) (rotation e) (active e) (radius e).
Definition set_velocity (e : Entity) (vx' vy' : float) : Entity :=
  mkEntity (x e) (y e) vx' vy' (mass e) (rotation e) (active e) (radius e).
Definition set_rotation (e : Entity) (r : float) : Entity :=
  mkEntity (x e) (y e) (vx e) (vy e) (mass e) r (active e) (radius e).

Definition update_position (dt : float) (entity : Entity) : Entity :=
  if active entity then
    let entity := set_position entity (x entity + vx entity * dt)
                               (y entity + vy entity * dt) in
    set_velocity entity (vx entity * 0.999) (vy entity * 0.999)
  else entity.

(** [entity.field = ...] through a reference: the object at [address]
    of the heap is replaced by its updated state. *)
Fixpoint assign (address : nat) (e : Entity) (heap : list Entity) : list Entity :=
  match heap, address with
  | [], _ => []
  | _ :: rest, O => e :: rest
  | e0 :: rest, S address' => e0 :: assign address' e rest
  end.

(** The body of the loop of [update_positions], for one reference. *)
Definition update_referenced (dt : float) (heap : list Entity) (address : nat)
  : list Entity :=
  match nth_error heap address with
  | Some entity => assign address (update_position dt entity) heap
  | None => heap
  end.

(** The list given to [update_positions] holds references to entity
    objects, which the loop updates in place: [heap] holds the objects
    by address and [entities] the addresses in the order of the list,
    so that an object the list holds twice is updated twice.  The heap
    after the call is returned. *)
Definition update_positions (heap : list Entity) (entities : list nat) (dt : float)
  : list Entity :=
  fold_left (update_referenced dt) entities heap.

Definition apply_force (entity : Entity) (force : Vector2.t) : Entity :=
  if mass entity =? 0 then entity
  else set_velocity entity (vx entity + Vector2.x force / mass entity)
                           (vy entity + Vector2.y force / mass entity).

Definition two_pi : float := 2 * M_PI.

(** [while entity.rotation >= 2*M_PI: entity.rotation -= 2*M_PI], run
    for at most [fuel] iterations; [None] when the loop is still
    running after them. *)
Fixpoint wrap_down (fuel : nat) (rotation : float) : option float :=
  if two_pi <=? rotation then
    match fuel with
    | O => None
    | S fuel' => wrap_down fuel' (rotation - two_pi)
    end
  else Some rotation.

(** [while entity.rotation < 0.0: entity.rotation += 2*M_PI] *)
Fixpoint wrap_up (fuel : nat) (rotation : float) : option float :=
  if rotation <? 0 then
    match fuel with
    | O => None
    | S fuel' => wrap_up fuel' (rotation + two_pi)
    end
  else Some rotation.

Definition apply_torque (fuel : nat) (entity : Entity) (torque : float)
  : option Entity :=
  if mass entity =? 0 then Some entity
  else
    let r := rotation entity + torque / mass entity in
    match wrap_down fuel r with
    | None => None
    | Some r =>
        match wrap_up fuel r with
        | None => None
        | Some r => Some (set_rotation entity r)
        end
    end.
End Rigidbody.

(** ** collision.pyx: detection and response for circular bodies *)

Module Collision.
Open Scope float_scope.
Import Rigidbody.

Definition check_collision (x1 y1 radius1 x2 y2 radius2 : float) : bool :=
  let dx := x2 - x1 in
  let dy := y2 - y1 in
  let distance_sq := dx * dx + dy * dy in
  let combined_radius := radius1 + radius2 in
  distance_sq <=? combined_radius * combined_radius.

Definition default_response_coef : float := 0.8.

(** The two entities are distinct objects; the pair returned holds
    their fields after the in-place updates. *)
Definition _handle_collision (entity1 entity2 : Entity) (response_coef : float)
  : Entity * Entity :=
  let dx := x entity2 - x entity1 in
  let dy := y entity2 - y entity1 in
  let distance_sq := dx * dx + dy * dy in
  if distance_sq <? 0.0001 then
    (set_position entity1 (x entity1 - 0.1) (y entity1),
     set_position entity2 (x entity2 + 0.1) (y entity2))
  else
    let distance := sqrt distance_sq in
    let overlap := radius entity1 + radius entity2 - distance in
    let nx := dx / distance in
    let ny := dy / distance in
    if (0 <? mass entity1) && (0 <? mass entity2) then
      let total_mass := mass entity1 + mass entity2 in
      let entity1_ratio := mass entity2 / total_mass in
      let entity2_ratio := mass entity1 / total_mass in
      let entity1 := set_position entity1 (x entity1 - nx * overlap * entity1_ratio)
                                          (y entity1 - ny * overlap * entity1_ratio) in
      let entity2 := set_position entity2 (x entity2 + nx * overlap * entity2_ratio)
                                          (y entity2 + ny * overlap * entity2_ratio) in
      let rvx := vx entity2 - vx entity1 in
      let rvy := vy entity2 - vy entity1 in
      let vel_along_normal := rvx * nx + rvy * ny in
      if 0 <? vel_along_normal then (entity1, entity2)
      else
        let impulse_scalar := - (1 + response_coef) * vel_along_normal in
        let impulse_scalar := impulse_scalar / (1 / mass entity1 + 1 / mass entity2) in
        let impulse_x := impulse_scalar * nx in
        let impulse_y := impulse_scalar * ny in
        (set_velocity entity1 (vx entity1 - impulse_x / mass entity1)
                              (vy entity1 - impulse_y / mass entity1),
         set_velocity entity2 (vx entity2 + impulse_x / mass entity2)
                              (vy entity2 + impulse_y / mass entity2))
    else if 0 <? mass entity1 then
      let entity1 := set_position entity1 (x entity1 - nx * overlap)
                                          (y entity1 - ny * overlap) in
      let dot := vx entity1 * nx + vy entity1 * ny in
      (set_velocity entity1 (response_coef * (vx entity1 - 2 * dot * nx))
                            (response_coef * (vy entity1 - 2 * dot * ny)),
       entity2)
    else if 0 <? mass entity2 then
      let entity2 := set_position entity2 (x entity2 + nx * overlap)
                                          (y entity2 + ny * overlap) in
      let dot := vx entity2 * nx + vy entity2 * ny in
      (entity1,
       set_velocity entity2 (response_coef * (vx entity2 - 2 * dot * nx))
                            (response_coef * (vy entity2 - 2 * dot * ny)))
    else (entity1, entity2).

(** [entities[i] = e] on the list that holds the entities. *)
Fixpoint store (i : nat) (e : Entity) (entities : list Entity) : list Entity :=
  match entities, i with
  | [], _ => []
  | _ :: rest, O => e :: rest
  | e0 :: rest, S i' => e0 :: store i' e rest
  end.

(** The body of the inner loop, for one pair [i < j]. *)
Definition resolve_pair (response_coef : float) (i : nat)
           (entities : list Entity) (j : nat) : list Entity :=
  match nth_error entities i, nth_error entities j with
  | Some entity1, Some entity2 =>
      if negb (active entity2) then entities
      else
        let dx := x entity2 - x entity1 in
        let dy := y entity2 - y entity1 in
        let distance_sq := dx * dx + dy * dy in
        let combined_radius := radius entity1 + radius entity2 in
        if combined_radius * combined_radius <? distance_sq then entities
        else
          let '(entity1, entity2) := _handle_collision entity1 entity2 response_coef in
          store j entity2 (store i entity1 entities)
  | _, _ => entities
  end.

(** The body of the outer loop, for one index [i]. *)
Definition resolve_from (response_coef : float) (n : nat)
           (entities : list Entity) (i : nat) : list Entity :=
  match nth_error entities i with
  | Some entity1 =>
      if negb (active entity1) then entities
      else fold_left (resolve_pair response_coef i) (seq (i + 1) (n - (i + 1))) entities
  | None => entities
  end.

(** The list holds distinct objects: the entity at index [i] is updated
    in place and read again, with its new fields, by the later pairs. *)
Definition resolve_collisions (entities : list Entity) (response_coef : float)
  : list Entity :=
  let n := length entities in
  fold_left (resolve_from response_coef n) (seq 0 n) entities.
End Collision.

(** ** matrix.pyx: the class [Matrix4] *)

(** The arithmetic the matrix code is written over: the operations of
    a C [double] and the one literal of the module.  The compiled
    module runs on binary64 doubles ([binary64] below). *)
Class Scalar (F : Type) : Type := {
  s0 : F;
  s1 : F;
  sadd : F -> F -> F;
  ssub : F -> F -> F;
  smul : F -> F -> F;
  sdiv : F -> F -> F;
  sopp : F -> F;
  sabs : F -> F;
  sltb : F -> F -> bool;
  (** the literal [1e-10] of [Matrix4.inverse] *)
  singular_eps : F
}.

#[export] Instance binary64 : Scalar float := {
  s0 := 0%float;
  s1 := 1%float;
  sadd := PrimFloat.add;
  ssub := PrimFloat.sub;
  smul := PrimFloat.mul;
  sdiv := PrimFloat.div;
  sopp := PrimFloat.opp;
  sabs := PrimFloat.abs;
  sltb := PrimFloat.ltb;
  singular_eps := 1e-10%float
}.

Declare Scope scalar_scope.
Delimit Scope scalar_scope with scalar.
Notation "a + b" := (sadd a b) : scalar_scope.
Notation "a - b" := (ssub a b) : scalar_scope.
Notation "a * b" := (smul a b) : scalar_scope.
Notation "a / b" := (sdiv a b) : scalar_scope.
Notation "- a" := (sopp a) : scalar_scope.
Notation "a <? b" := (sltb a b) : scalar_scope.

Module Matrix.
Section Matrix4.
Context {F : Type} `{Scalar F}.
Open Scope scalar_scope.

(** [cdef enum MatrixIndex]: row-major, flat index [row * 4 + column]. *)
Definition M00 : nat := 0.
Definition M01 : nat := 1.
Definition M02 : nat := 2.
Definition M03 : nat := 3.
Definition M10 : nat := 4.
Definition M11 : nat := 5.
Definition M12 : nat := 6.
Definition M13 : nat := 7.
Definition M20 : nat := 8.
Definition M21 : nat := 9.
Definition M22 : nat := 10.
Definition M23 : nat := 11.
Definition M30 : nat := 12.
Definition M31 : nat := 13.
Definition M32 : nat := 14.
Definition M33 : nat := 15.

(** [double[16] data] *)
Definition Matrix4 : Type := list F.

(** [Matrix4.__init__]: the identity matrix. *)
Definition new_Matrix4 : Matrix4 :=
[ s1; s0; s0; s0;
  s0; s1; s0; s0;
  s0; s0; s1; s0;
  s0; s0; s0; s1 ].

(** [self.data[i]] *)
Definition get (self : Matrix4) (i : nat) : F := nth i self s0.

(** [self.data[i] = v] *)
Fixpoint set (i : nat) (v : F) (self : Matrix4) : Matrix4 :=
match self, i with
| [], _ => []
| _ :: rest, O => v :: rest
| a :: rest, S i' => a :: set i' v rest
end.

(** The innermost loops of [__mul__] for one cell [(i, j)]. *)
Definition mul_cell (self other : Matrix4) (i : nat) (result : Matrix4) (j : nat)
: Matrix4 :=
let result := set (i * 4 + j) s0 result in
fold_left
  (fun result k =>
     set (i * 4 + j)
         (get result (i * 4 + j) + get self (i * 4 + k) * get other (k * 4 + j))
         result)
  (seq 0 4) result.

Definition mul_matrix (self other : Matrix4) : Matrix4 :=
fold_left
  (fun result i => fold_left (mul_cell self other i) (seq 0 4) result)
  (seq 0 4) new_Matrix4.

Definition mul_scalar (self : Matrix4) (scalar : F) : Matrix4 :=
fold_left (fun result i => set i (get self i * scalar) result) (seq 0 16) new_Matrix4.

Definition __mul__ (self : Matrix4) (value : operand F Matrix4) : outcome Matrix4 :=
match value with
| Same other => Returned (mul_matrix self other)
| Number scalar => Returned (mul_scalar self scalar)
| Other => NotImplemented
end.

Definition transpose (self : Matrix4) : Matrix4 :=
fold_left
  (fun result i =>
     fold_left (fun result j => set (i * 4 + j) (get self (j * 4 + i)) result)
               (seq 0 4) result)
  (seq 0 4) new_Matrix4.

Definition determinant (self : Matrix4) : F :=
let d := get self in
let cofactor00 :=
  d M11 * (d M22 * d M33 - d M23 * d M32) -
  d M12 * (d M21 * d M33 - d M23 * d M31) +
  d M13 * (d M21 * d M32 - d M22 * d M31) in
let cofactor01 :=
  d M10 * (d M22 * d M33 - d M23 * d M32) -
  d M12 * (d M20 * d M33 - d M23 * d M30) +
  d M13 * (d M20 * d M32 - d M22 * d M30) in
let cofactor02 :=
  d M10 * (d M21 * d M33 - d M23 * d M31) -
  d M11 * (d M20 * d M33 - d M23 * d M30) +
  d M13 * (d M20 * d M31 - d M21 * d M30) in
let cofactor03 :=
  d M10 * (d M21 * d M32 - d M22 * d M31) -
  d M11 * (d M20 * d M32 - d M22 * d M30) +
  d M12 * (d M20 * d M31 - d M21 * d M30) in
d M00 * cofactor00 -
d M01 * cofactor01 +
d M02 * cofactor02 -
d M03 * cofactor03.

Definition inverse (self : Matrix4) : exn + Matrix4 :=
let d := get self in
let det := determinant self in
if sabs det <? singular_eps then inl ValueError
else
  let inv_det := s1 / det in
  let result := new_Matrix4 in
  let result := set M00 (inv_det * (
    d M11 * (d M22 * d M33 - d M23 * d M32) -
    d M12 * (d M21 * d M33 - d M23 * d M31) +
    d M13 * (d M21 * d M32 - d M22 * d M31))) result in
  let result := set M01 ((- inv_det) * (
    d M01 * (d M22 * d M33 - d M23 * d M32) -
    d M02 * (d M21 * d M33 - d M23 * d M31) +
    d M03 * (d M21 * d M32 - d M22 * d M31))) result in
  let result := set M02 (inv_det * (
    d M01 * (d M12 * d M33 - d M13 * d M32) -
    d M02 * (d M11 * d M33 - d M13 * d M31) +
    d M03 * (d M11 * d M32 - d M12 * d M31))) result in
  let result := set M03 ((- inv_det) * (
    d M01 * (d M12 * d M23 - d M13 * d M22) -
    d M02 * (d M11 * d M23 - d M13 * d M21) +
    d M03 * (d M11 * d M22 - d M12 * d M21))) result in
  let result := set M10 ((- inv_det) * (
    d M10 * (d M22 * d M33 - d M23 * d M32) -
    d M12 * (d M20 * d M33 - d M23 * d M30) +
    d M13 * (d M20 * d M32 - d M22 * d M30))) result in
  let result := set M11 (inv_det * (
    d M00 * (d M22 * d M33 - d M23 * d M32) -
    d M02 * (d M20 * d M33 - d M23 * d M30) +
    d M03 * (d M20 * d M32 - d M22 * d M30))) result in
  let result := set M12 ((- inv_det) * (
    d M00 * (d M12 * d M33 - d M13 * d M32) -
    d M02 * (d M10 * d M33 - d M13 * d M30) +
    d M03 * (d M10 * d M32 - d M12 * d M30))) result in
  let result := set M13 (inv_det * (
    d M00 * (d M12 * d M23 - d M13 * d M22) -
    d M02 * (d M10 * d M23 - d M13 * d M20) +
    d M03 * (d M10 * d M22 - d M12 * d M20))) result in
  let result := set M20 (inv_det * (
    d M10 * (d M21 * d M33 - d M23 * d M31) -
    d M11 * (d M20 * d M33 - d M23 * d M30) +
    d M13 * (d M20 * d M31 - d M21 * d M30))) result in
  let result := set M21 ((- inv_det) * (
    d M00 * (d M21 * d M33 - d M23 * d M31) -
    d M01 * (d M20 * d M33 - d M23 * d M30) +
    d M03 * (d M20 * d M31 - d M21 * d M30))) result in
  let result := set M22 (inv_det * (
    d M00 * (d M11 * d M33 - d M13 * d M31) -
    d M01 * (d M10 * d M33 - d M13 * d M30) +
    d M03 * (d M10 * d M31 - d M11 * d M30))) result in
  let result := set M23 ((- inv_det) * (
    d M00 * (d M11 * d M23 - d M13 * d M21) -
    d M01 * (d M10 * d M23 - d M13 * d M20) +
    d M03 * (d M10 * d M21 - d M11 * d M20))) result in
  let result := set M30 ((- inv_det) * (
    d M10 * (d M21 * d M32 - d M22 * d M31) -
    d M11 * (d M20 * d M32 - d M22 * d M30) +
    d M12 * (d M20 * d M31 - d M21 * d M30))) result in
  let result := set M31 (inv_det * (
    d M00 * (d M21 * d M32 - d M22 * d M31) -
    d M01 * (d M20 * d M32 - d M22 * d M30) +
    d M02 * (d M20 * d M31 - d M21 * d M30))) result in
  let result := set M32 ((- inv_det) * (
    d M00 * (d M11 * d M32 - d M12 * d M31) -
    d M01 * (d M10 * d M32 - d M12 * d M30) +
    d M02 * (d M10 * d M31 - d M11 * d M30))) result in
  let result := set M33 (inv_det * (
    d M00 * (d M11 * d M22 - d M12 * d M21) -
    d M01 * (d M10 * d M22 - d M12 * d M20) +
    d M02 * (d M10 * d M21 - d M11 * d M20))) result in
  inr result.

Definition copy (self : Matrix4) : Matrix4 :=
  fold_left (fun result i => set i (get self i) result) (seq 0 16) new_Matrix4.

(** [transform_vector4]; the [Vector4] is given and returned by its
    fields [(x, y, z, w)]. *)
Definition transform_vector4 (self : Matrix4) (v : F * F * F * F) : F * F * F * F :=
  let '(vx, vy, vz, vw) := v in
  let d := get self in
  let x := d M00 * vx + d M01 * vy + d M02 * vz + d M03 * vw in
  let y := d M10 * vx + d M11 * vy + d M12 * vz + d M13 * vw in
  let z := d M20 * vx + d M21 * vy + d M22 * vz + d M23 * vw in
  let w := d M30 * vx + d M31 * vy + d M32 * vz + d M33 * vw in
  (x, y, z, w).

Definition identity : Matrix4 := new_Matrix4.

Definition translation (x y z : F) : Matrix4 :=
  let m := new_Matrix4 in
  let m := set M03 x m in
  let m := set M13 y m in
  let m := set M23 z m in
  m.

Definition scaling (x y z : F) : Matrix4 :=
  let m := new_Matrix4 in
  let m := set M00 x m in
  let m := set M11 y m in
  let m := set M22 z m in
  m.
End Matrix4.
End Matrix.

(** [Matrix4.transform_vector3] on doubles (its tests [w != 1.0] and
    [w != 0.0] are those of binary64); the [Vector3] is given and
    returned by its fields. *)
Module MatrixDouble.

Definition transform_vector3 (self : list float) (v : float * float * float)
  : float * float * float :=
  let '(vx, vy, vz) := v in
  let d := Matrix.get self in
  let x := (d Matrix.M00 * vx + d Matrix.M01 * vy + d Matrix.M02 * vz + d Matrix.M03)%float in
  let y := (d Matrix.M10 * vx + d Matrix.M11 * vy + d Matrix.M12 * vz + d Matrix.M13)%float in
  let z := (d Matrix.M20 * vx + d Matrix.M21 * vy + d Matrix.M22 * vz + d Matrix.M23)%float in
  let w := (d Matrix.M30 * vx + d Matrix.M31 * vy + d Matrix.M32 * vz + d Matrix.M33)%float in
  if negb (w =? 1)%float && negb (w =? 0)%float
  then ((x / w)%float, (y / w)%float, (z / w)%float)
  else (x, y, z).

End MatrixDouble.

(** ** quaternion.pyx: the class [Quaternion] *)

(** What the quaternion code needs beyond [Scalar]: the square root and
    the literals [2], [1e-9] and [1e-10] of the module. *)
Class ScalarExt (F : Type) `{Scalar F} : Type := {
  ssqrt : F -> F;
  lit_2 : F;
  lit_1em9 : F;
  lit_1em10 : F
}.

#[export] Instance binary64_ext : ScalarExt float := {
  ssqrt := PrimFloat.sqrt;
  lit_2 := 2%float;
  lit_1em9 := 1e-9%float;
  lit_1em10 := 1e-10%float
}.

Module Quaternion.

(** The four fields of a [Quaternion]. *)
Record t (F : Type) : Type := mk { x : F; y : F; z : F; w : F }.
Arguments mk {F} x y z w.
Arguments x {F} _.
Arguments y {F} _.
Arguments z {F} _.
Arguments w {F} _.

Section Quaternion.
Context {F : Type} `{ScalarExt F}.
Open Scope scalar_scope.

(** [Quaternion.identity()], and the value the fallbacks return. *)
Definition identity : t F := mk s0 s0 s0 s1.

Definition __add__ (self other : t F) : t F :=
  mk (x self + x other) (y self + y other) (z self + z other) (w self + w other).

Definition __sub__ (self other : t F) : t F :=
  mk (x self - x other) (y self - y other) (z self - z other) (w self - w other).

(** The Hamilton product of [__mul__]. *)
Definition hamilton (self q : t F) : t F :=
  mk (w self * x q + x self * w q + y self * z q - z self * y q)
     (w self * y q - x self * z q + y self * w q + z self * x q)
     (w self * z q + x self * y q - y self * x q + z self * w q)
     (w self * w q - x self * x q - y self * y q - z self * z q).

Definition __mul__ (self : t F) (value : operand F (t F)) : outcome (t F) :=
  match value with
  | Number value =>
      Returned (mk (x self * value) (y self * value) (z self * value) (w self * value))
  | Same q => Returned (hamilton self q)
  | Other => NotImplemented
  end.

(** [__eq__]: [False] for anything that is not a [Quaternion]. *)
Definition __eq__ (self : t F) (other : operand F (t F)) : bool :=
  match other with
  | Same q =>
      (sabs (x self - x q) <? lit_1em9)
      && (sabs (y self - y q) <? lit_1em9)
      && (sabs (z self - z q) <? lit_1em9)
      && (sabs (w self - w q) <? lit_1em9)
  | _ => false
  end.

Definition length (self : t F) : F :=
  ssqrt (x self * x self + y self * y self + z self * z self + w self * w self).

Definition normalize (self : t F) : t F :=
  let len_val := length self in
  if len_val <? lit_1em10 then mk s0 s0 s0 s1
  else mk (x self / len_val) (y self / len_val) (z self / len_val) (w self / len_val).

Definition conjugate (self : t F) : t F :=
  mk (- x self) (- y self) (- z self) (w self).

Definition inverse (self : t F) : t F :=
  let len_sq := x self * x self + y self * y self + z self * z self + w self * w self in
  if len_sq <? lit_1em10 then mk s0 s0 s0 s1
  else
    let inv_len_sq := s1 / len_sq in
    mk ((- x self) * inv_len_sq) ((- y self) * inv_len_sq)
       ((- z self) * inv_len_sq) (w self * inv_len_sq).

(** [rotate_vector3]; the [Vector3] is given and returned by its fields. *)
Definition rotate_vector3 (self : t F) (v : F * F * F) : F * F * F :=
  let '(vx, vy, vz) := v in
  let vq := mk vx vy vz s0 in
  let q_inv := conjugate self in
  let result := hamilton (hamilton self vq) q_inv in
  (x result, y result, z result).

Definition to_rotation_matrix (self : t F) : list F :=
  let m := Matrix.new_Matrix4 in
  let q := normalize self in
  let xx := x q * x q in
  let xy := x q * y q in
  let xz := x q * z q in
  let xw := x q * w q in
  let yy := y q * y q in
  let yz := y q * z q in
  let yw := y q * w q in
  let zz := z q * z q in
  let zw := z q * w q in
  let m := Matrix.set 0 (s1 - lit_2 * (yy + zz)) m in
  let m := Matrix.set 1 (lit_2 * (xy - zw)) m in
  let m := Matrix.set 2 (lit_2 * (xz + yw)) m in
  let m := Matrix.set 3 s0 m in
  let m := Matrix.set 4 (lit_2 * (xy + zw)) m in
  let m := Matrix.set 5 (s1 - lit_2 * (xx + zz)) m in
  let m := Matrix.set 6 (lit_2 * (yz - xw)) m in
  let m := Matrix.set 7 s0 m in
  let m := Matrix.set 8 (lit_2 * (xz - yw)) m in
  let m := Matrix.set 9 (lit_2 * (yz + xw)) m in
  let m := Matrix.set 10 (s1 - lit_2 * (xx + yy)) m in
  let m := Matrix.set 11 s0 m in
  let m := Matrix.set 12 s0 m in
  let m := Matrix.set 13 s0 m in
  let m := Matrix.set 14 s0 m in
  let m := Matrix.set 15 s1 m in
  m.

Definition copy (self : t F) : t F := mk (x self) (y self) (z self) (w self).

End Quaternion.
End Quaternion.

(** ** Vocabulary of the statements *)

(** The bit-level first estimate of the inverse square root: the double
    whose bits are [magic_number - (bits of x >> 1)]. *)
Definition bit_estimate (x : float) : float :=
  Double.double_of_bits
    (Double.wrap64 (Fast.magic_number - Z.shiftr (Double.bits_of_double x) 1)).

(** The division-based first estimate: [1.0 / sqrt(x)]. *)
Definition division_estimate (x : float) : float := (1 / sqrt x)%float.

(** The two wrapping loops of [apply_torque], one after the other. *)
Definition wrap_rotation (fuel : nat) (r : float) : option float :=
  match Rigidbody.wrap_down fuel r with
  | Some r' => Rigidbody.wrap_up fuel r'
  | None => None
  end.

(** The squared distance between the centers of two entities. *)
Definition center_distance_sq (e1 e2 : Rigidbody.Entity) : float :=
  let dx := (Rigidbody.x e2 - Rigidbody.x e1)%float in
  let dy := (Rigidbody.y e2 - Rigidbody.y e1)%float in
  (dx * dx + dy * dy)%float.

(** The distance between the centers. *)
Definition center_distance (e1 e2 : Rigidbody.Entity) : float :=
  sqrt (center_distance_sq e1 e2).

(** The unit collision normal [n = (center2 - center1) / distance]. *)
Definition collision_normal (e1 e2 : Rigidbody.Entity) : float * float :=
  ((Rigidbody.x e2 - Rigidbody.x e1) / center_distance e1 e2,
   (Rigidbody.y e2 - Rigidbody.y e1) / center_distance e1 e2)%float.

(** The velocity of an entity, as a pair. *)
Definition velocity (e : Rigidbody.Entity) : float * float :=
  (Rigidbody.vx e, Rigidbody.vy e).

(** [restitution * (v - 2 * (v . n) * n)], component by component. *)
Definition reflected (restitution : float) (v n : float * float) : float * float :=
  let dot := (fst v * fst n + snd v * snd n)%float in
  (restitution * (fst v - 2 * dot * fst n),
   restitution * (snd v - 2 * dot * snd n))%float.

(** A rotation is canonical when it lies in [0, 2*M_PI). *)
Definition canonical_rotation (r : float) : bool :=
  ((0 <=? r) && (r <? Rigidbody.two_pi))%float.

(** Two doubles that are equal, or are both zeros: what the [==] of the
    language cannot tell apart, short of NaN. *)
Definition same_value (a b : float) : Prop :=
  a = b \/ (is_zero a = true /\ is_zero b = true).

(** [b] is the opposite of [a]; when both are zero the two may carry the
    same sign, [+0.0]. *)
Definition opposite_of (a b : float) : Prop :=
  b = (- a)%float \/ (a = 0%float /\ b = 0%float).

(** Doubles that are numbers: none of them is a NaN.  The model has a
    single NaN, while on the hardware a NaN carries a sign and a
    payload; a statement about the bits of a result therefore leaves
    NaN operands out. *)
Definition numbers (l : list float) : Prop :=
  Forall (fun c => is_nan c = false) l.

(** The fields of an entity that no physics pass writes. *)
Definition same_body (e e' : Rigidbody.Entity) : Prop :=
  Rigidbody.mass e' = Rigidbody.mass e
  /\ Rigidbody.rotation e' = Rigidbody.rotation e
  /\ Rigidbody.active e' = Rigidbody.active e
  /\ Rigidbody.radius e' = Rigidbody.radius e.

(** What a pass may do to an entity: keep its body, and keep all of it
    when it is inactive. *)
Definition passed_over (e e' : Rigidbody.Entity) : Prop :=
  same_body e e' /\ (Rigidbody.active e = false -> e' = e).

(** The test by which [resolve_collisions] skips a pair. *)
Definition apart (e1 e2 : Rigidbody.Entity) : bool :=
  ((Rigidbody.radius e1 + Rigidbody.radius e2)
   * (Rigidbody.radius e1 + Rigidbody.radius e2)
   <? center_distance_sq e1 e2)%float.

(** Equality up to the sign of zero, field by field, on the four fields
    of a vector. *)
Definition same_vector4 (u v : float * float * float * float) : Prop :=
  let '(a, b, c, d) := u in
  let '(a', b', c', d') := v in
  same_value a a' /\ same_value b b' /\ same_value c c' /\ same_value d d'.

(** [a] lies within [tolerance] of [b]. *)
Definition within (tolerance a b : float) : bool :=
  (abs (a - b) <=? tolerance)%float.













(* ================================================================= *)
(** * Part II: properties *)
(* ================================================================= *)

(** ** The embedding on known values *)

Section KnownValues.
Open Scope float_scope.

(** The bit pattern of 1.0, and the estimate the magic number gives. *)
Example bits_of_one :
  Double.bits_of_double 1 = 0x3FF0000000000000%Z
  /\ bit_estimate 1 = Double.double_of_bits 0x3FEEEB50C7B537A9%Z.
Proof. split; vm_compute; reflexivity. Qed.

(** Bit patterns survive the round trip through [double_of_bits]. *)
Example bits_round_trip :
  Double.double_of_bits (Double.bits_of_double 0.1) = 0.1
  /\ Double.double_of_bits (Double.bits_of_double (-1e-310)) = -1e-310
  /\ Double.double_of_bits (Double.bits_of_double neg_infinity) = neg_infinity.
Proof. repeat split; vm_compute; reflexivity. Qed.

(** [fast_invsqrt(4.0)] in the two drafts: 0.49999785... and 0.5. *)
Example fast_invsqrt_of_four :
  Fast.fast_invsqrt 4 = 0x1.ffff70034ccbbp-2
  /\ Newton.fast_invsqrt 4 = 0.5.
Proof. split; vm_compute; reflexivity. Qed.

(** A pair that does not touch is returned as it was. *)
Example apart_is_untouched :
  Collision.resolve_collisions
    [Rigidbody.mkEntity 0 0 1 0 1 0 true 1; Rigidbody.mkEntity 10 0 (-1) 0 1 0 true 1]
    0.8
  = [Rigidbody.mkEntity 0 0 1 0 1 0 true 1; Rigidbody.mkEntity 10 0 (-1) 0 1 0 true 1].
Proof. vm_compute. reflexivity. Qed.

(** One tick of drag: (10, 0) becomes (9.99, 0); and an entity that the
    list holds twice is moved and slowed twice. *)
Example drag_decay :
  Rigidbody.update_positions [Rigidbody.mkEntity 0 0 10 0 1 0 true 0] [0%nat] (1 / 60)
  = [Rigidbody.mkEntity (10 * (1 / 60)) 0 9.99 0 1 0 true 0]
  /\ Rigidbody.update_positions [Rigidbody.mkEntity 0 0 10 0 1 0 true 0]
                                [0%nat; 0%nat] (1 / 60)
     = [Rigidbody.mkEntity (10 * (1 / 60) + 9.99 * (1 / 60)) 0 (9.99 * 0.999) 0
                           1 0 true 0].
Proof. split; vm_compute; reflexivity. Qed.

End KnownValues.

(** ** Facts about binary64 comparisons and products *)

Section DoubleFacts.
Open Scope float_scope.

Lemma SFcompare_antisym (a b : spec_float) :
  SFcompare b a = option_map CompOpp (SFcompare a b).
Proof.
  destruct a as [sa|sa| |sa ma ea], b as [sb|sb| |sb mb eb]; simpl;
    try reflexivity;
    try (destruct sa; reflexivity); try (destruct sb; reflexivity);
    try (destruct sa, sb; reflexivity).
  destruct sa, sb; simpl; try reflexivity;
    rewrite (Z.compare_antisym ea eb);
    destruct (ea ?= eb)%Z; simpl; try reflexivity;
    change (Pos.compare_cont Eq mb ma) with (mb ?= ma)%positive;
    rewrite (Pos.compare_antisym ma mb); unfold Pos.compare;
    try rewrite CompOpp_involutive; reflexivity.
Qed.

(** The three comparisons read off one [SFcompare]. *)
Ltac by_compare x y :=
  rewrite ?FloatAxioms.ltb_spec, ?FloatAxioms.leb_spec, ?FloatAxioms.eqb_spec;
  unfold SFltb, SFleb, SFeqb;
  rewrite (SFcompare_antisym (Prim2SF x) (Prim2SF y));
  destruct (SFcompare (Prim2SF x) (Prim2SF y)) as [[]|]; simpl; congruence.

Lemma ltb_not_leb (x y : float) : (x <? y) = true -> (y <=? x) = false.
Proof. by_compare x y. Qed.

Lemma leb_not_ltb (x y : float) : (x <=? y) = true -> (y <? x) = false.
Proof. by_compare x y. Qed.

Lemma ltb_not_eqb (x y : float) : (x <? y) = true -> (y =? x) = false.
Proof. by_compare x y. Qed.

Lemma ltb_not_ltb (x y : float) : (x <? y) = true -> (y <? x) = false.
Proof. by_compare x y. Qed.

Lemma mul_comm (x y : float) : x * y = y * x.
Proof.
  apply Prim2SF_inj. rewrite !mul_spec. unfold SF64mul.
  destruct (Prim2SF x) as [sx|sx| |sx mx ex], (Prim2SF y) as [sy|sy| |sy my ey];
    simpl; try reflexivity; try (now rewrite xorb_comm).
  now rewrite xorb_comm, Pos.mul_comm, Z.add_comm.
Qed.

(** Two doubles that a comparison tells apart are different. *)
Lemma eqb_false_neq (a b : float) : (a =? b) = false -> (b =? b) = true -> a <> b.
Proof. intros Hab Hbb E. rewrite E in Hab. congruence. Qed.

End DoubleFacts.

(** ** More facts about binary64 arithmetic *)

Section DoubleAlgebra.
Open Scope float_scope.

Lemma add_comm (x y : float) : x + y = y + x.
Proof.
  apply Prim2SF_inj. rewrite !add_spec. unfold SF64add.
  destruct (Prim2SF x) as [sx|sx| |sx mx ex], (Prim2SF y) as [sy|sy| |sy my ey];
    try reflexivity; try (destruct sx, sy; reflexivity).
  unfold SFadd. rewrite (Z.min_comm ey ex), Z.add_comm. reflexivity.
Qed.

Lemma opp_involutive (x : float) : - - x = x.
Proof.
  apply Prim2SF_inj. rewrite !opp_spec.
  destruct (Prim2SF x) as [s|s| |s m e]; simpl; rewrite ?negb_involutive; reflexivity.
Qed.

(** Rounding only threads the sign through. *)
Lemma binary_round_aux_opp (s : bool) (m e : Z) (l : location) :
  binary_round_aux prec emax (negb s) m e l
  = SFopp (binary_round_aux prec emax s m e l).
Proof.
  unfold binary_round_aux.
  destruct (shr_fexp prec emax m e l) as [mrs' e'].
  destruct (shr_fexp prec emax _ e' loc_Exact) as [mrs'' e''].
  destruct (shr_m mrs''); try reflexivity.
  destruct (e'' <=? emax - prec)%Z; reflexivity.
Qed.

Lemma binary_round_opp (s : bool) (m : positive) (e : Z) :
  binary_round prec emax (negb s) m e = SFopp (binary_round prec emax s m e).
Proof.
  unfold binary_round. destruct (shl_align _ _ _) as [mz ez].
  apply binary_round_aux_opp.
Qed.

Lemma binary_normalize_opp (m e : Z) :
  m <> 0%Z ->
  binary_normalize prec emax (- m) e false
  = SFopp (binary_normalize prec emax m e false).
Proof.
  destruct m as [|p|p]; intros Hm; [congruence| |]; simpl.
  - apply (binary_round_opp false).
  - apply (binary_round_opp true).
Qed.

Lemma SFsub_antisym (a b : spec_float) :
  SFsub prec emax b a = SFopp (SFsub prec emax a b)
  \/ (SFsub prec emax a b = S754_zero false
      /\ SFsub prec emax b a = S754_zero false).
Proof.
  destruct a as [sa|sa| |sa ma ea], b as [sb|sb| |sb mb eb];
    try (left; reflexivity);
    try (destruct sa, sb; simpl; (left; reflexivity) || (right; split; reflexivity)).
  unfold SFsub. rewrite (Z.min_comm eb ea).
  set (ez := Z.min ea eb).
  set (A := cond_Zopp sa (Z.pos (fst (shl_align ma ea ez)))).
  set (B := cond_Zopp sb (Z.pos (fst (shl_align mb eb ez)))).
  destruct (Z.eq_dec (A - B) 0) as [E|NE].
  - right. replace (B - A)%Z with 0%Z by lia. rewrite E. split; reflexivity.
  - left. replace (B - A)%Z with (- (A - B))%Z by lia.
    now apply binary_normalize_opp.
Qed.

Lemma sub_antisym (x y : float) : opposite_of (x - y) (y - x).
Proof.
  unfold opposite_of.
  destruct (SFsub_antisym (Prim2SF x) (Prim2SF y)) as [E|[E1 E2]].
  - left. apply Prim2SF_inj. rewrite opp_spec, !sub_spec. exact E.
  - right. split; apply Prim2SF_inj; rewrite sub_spec; assumption.
Qed.

Lemma sub_add_opp (x y : float) : x - y = x + - y.
Proof.
  apply Prim2SF_inj. rewrite sub_spec, add_spec, opp_spec.
  unfold SF64sub, SF64add.
  destruct (Prim2SF x) as [sx|sx| |sx mx ex], (Prim2SF y) as [sy|sy| |sy my ey];
    try reflexivity; destruct sx, sy; reflexivity.
Qed.

Lemma mul_opp_opp (x y : float) : (- x) * (- y) = x * y.
Proof.
  apply Prim2SF_inj. rewrite !mul_spec, !opp_spec. unfold SF64mul.
  destruct (Prim2SF x) as [sx|sx| |sx mx ex], (Prim2SF y) as [sy|sy| |sy my ey];
    simpl; try reflexivity; destruct sx, sy; reflexivity.
Qed.

Lemma mul_opp_l (x y : float) : (- x) * y = - (x * y).
Proof.
  apply Prim2SF_inj. rewrite opp_spec, !mul_spec, opp_spec. unfold SF64mul.
  destruct (Prim2SF x) as [sx|sx| |sx mx ex], (Prim2SF y) as [sy|sy| |sy my ey];
    simpl; try reflexivity; try (destruct sx, sy; reflexivity).
  replace (xorb (negb sx) sy) with (negb (xorb sx sy)) by (destruct sx, sy; reflexivity).
  apply binary_round_aux_opp.
Qed.

Lemma sub_sqr_sym (x y : float) : (x - y) * (x - y) = (y - x) * (y - x).
Proof.
  destruct (sub_antisym x y) as [E|[E1 E2]].
  - rewrite E, mul_opp_opp. reflexivity.
  - rewrite E1, E2. reflexivity.
Qed.

Lemma abs_opp (x : float) : abs (- x) = abs x.
Proof.
  apply Prim2SF_inj. rewrite !abs_spec, opp_spec.
  destruct (Prim2SF x); reflexivity.
Qed.

Lemma abs_sub_sym (x y : float) : abs (x - y) = abs (y - x).
Proof.
  destruct (sub_antisym x y) as [E|[E1 E2]].
  - rewrite E, abs_opp. reflexivity.
  - rewrite E1, E2. reflexivity.
Qed.

(** Multiplying by 1.0 rounds nothing away. *)
Lemma SFmul_one_l (s : bool) (m : positive) (e : Z) :
  bounded prec emax m e = true ->
  SFmul prec emax (S754_finite false 4503599627370496 (-52)) (S754_finite s m e)
  = S754_finite s m e.
Proof.
  unfold bounded, canonical_mantissa. intros Hb.
  apply andb_true_iff in Hb as [Hc He]. apply Z.eqb_eq in Hc.
  unfold SFmul, binary_round_aux. cbn [xorb Pos.mul].
  match goal with
  | |- context [shr_fexp prec emax (Z.pos ?p) ?e0 loc_Exact] =>
      assert (H1 : shr_fexp prec emax (Z.pos p) e0 loc_Exact
                   = ({| shr_m := Z.pos m; shr_r := false; shr_s := false |}, e))
  end.
  { unfold shr_fexp. cbn [Zdigits2 digits2_pos]. rewrite !Pos2Z.inj_succ.
    match goal with
    | |- context [fexp prec emax ?z] =>
        replace z with (Z.pos (digits2_pos m) + e)%Z by lia
    end.
    rewrite Hc. replace (e - (-52 + e))%Z with 52%Z by lia.
    unfold shr. cbn [iter_pos shr_1 shr_record_of_loc orb]. f_equal. lia. }
  rewrite H1. cbn [shr_m loc_of_shr_record round_nearest_even].
  assert (H2 : shr_fexp prec emax (Z.pos m) e loc_Exact
               = ({| shr_m := Z.pos m; shr_r := false; shr_s := false |}, e)).
  { unfold shr_fexp. cbn [Zdigits2]. rewrite Hc, Z.sub_diag. reflexivity. }
  rewrite H2. cbn [shr_m]. rewrite He. reflexivity.
Qed.

Lemma mul_one_l (x : float) : 1 * x = x.
Proof.
  apply Prim2SF_inj. rewrite mul_spec. unfold SF64mul.
  change (Prim2SF 1) with (S754_finite false 4503599627370496 (-52)).
  pose proof (Prim2SF_valid x) as Hv.
  destruct (Prim2SF x) as [s|s| |s m e]; try reflexivity.
  apply SFmul_one_l. exact Hv.
Qed.

Lemma mul_one_r (x : float) : x * 1 = x.
Proof. rewrite mul_comm. apply mul_one_l. Qed.

End DoubleAlgebra.

(** ** Zeros and finite doubles *)

Section Zeros.
Open Scope float_scope.

Lemma Prim2SF_zero : Prim2SF 0 = S754_zero false.
Proof. reflexivity. Qed.

Lemma is_zero_SF (x : float) :
  is_zero x = true <-> exists s, Prim2SF x = S754_zero s.
Proof.
  unfold is_zero. rewrite FloatAxioms.eqb_spec.
  change (Prim2SF zero) with (S754_zero false).
  destruct (Prim2SF x) as [s| s| |s m e]; cbn.
  - split; [eauto|reflexivity].
  - split; [destruct s; discriminate|intros [? E]; discriminate E].
  - split; [discriminate|intros [? E]; discriminate E].
  - split; [destruct s; discriminate|intros [? E]; discriminate E].
Qed.

Lemma is_finite_SF (x : float) :
  is_finite x = true ->
  (exists s, Prim2SF x = S754_zero s)
  \/ (exists s m e, Prim2SF x = S754_finite s m e).
Proof.
  unfold is_finite, is_nan, is_infinity.
  rewrite !FloatAxioms.eqb_spec, abs_spec.
  change (Prim2SF infinity) with (S754_infinity false).
  destruct (Prim2SF x) as [s| s| |s m e].
  - eauto.
  - destruct s; cbv; discriminate.
  - cbv; discriminate.
  - intros _. right. eauto.
Qed.

Lemma mul_zero_l (x : float) : is_finite x = true -> is_zero (0 * x) = true.
Proof.
  intros Hx. apply is_zero_SF. rewrite mul_spec.
  change (Prim2SF 0) with (S754_zero false).
  destruct (is_finite_SF x Hx) as [[s ->]|(s & m & e & ->)]; cbn; eauto.
Qed.

Lemma mul_zero_r (x : float) : is_finite x = true -> is_zero (x * 0) = true.
Proof. intros Hx. rewrite mul_comm. apply mul_zero_l, Hx. Qed.

Lemma add_zeros (a b : float) :
  is_zero a = true -> is_zero b = true -> is_zero (a + b) = true.
Proof.
  intros Ha Hb. apply is_zero_SF in Ha, Hb. destruct Ha as [sa Ha], Hb as [sb Hb].
  apply is_zero_SF. rewrite add_spec, Ha, Hb.
  destruct sa, sb; cbn; eauto.
Qed.

Lemma zero_add (z x : float) : is_zero z = true -> same_value (z + x) x.
Proof.
  intros Hz. pose proof Hz as Hz'. apply is_zero_SF in Hz'. destruct Hz' as [sz Ez].
  destruct (Prim2SF x) as [s| s| |s m e] eqn:Ex.
  - right. split; [apply add_zeros; [exact Hz|]|]; apply is_zero_SF; eauto.
  - left. apply Prim2SF_inj. rewrite add_spec, Ez, Ex. reflexivity.
  - left. apply Prim2SF_inj. rewrite add_spec, Ez, Ex. reflexivity.
  - left. apply Prim2SF_inj. rewrite add_spec, Ez, Ex. reflexivity.
Qed.

Lemma add_zero (x z : float) : is_zero z = true -> same_value (x + z) x.
Proof. intros Hz. rewrite add_comm. apply zero_add, Hz. Qed.

Lemma same_value_add_zero (a m z : float) :
  same_value a m -> is_zero z = true -> same_value (a + z) m.
Proof.
  intros [->|[Ha Hm]] Hz.
  - apply add_zero, Hz.
  - right. split; [apply add_zeros; assumption|exact Hm].
Qed.

Lemma same_value_eqb (a b : float) :
  same_value a b -> is_nan b = false -> (a =? b) = true.
Proof.
  intros [->|[Ha Hb]] Hn.
  - unfold is_nan in Hn. now destruct (b =? b).
  - apply is_zero_SF in Ha, Hb. destruct Ha as [sa Ha], Hb as [sb Hb].
    rewrite FloatAxioms.eqb_spec, Ha, Hb. reflexivity.
Qed.

Lemma sub_diag (x : float) : is_finite x = true -> x - x = 0.
Proof.
  intros Hx. apply Prim2SF_inj. rewrite sub_spec.
  change (Prim2SF 0) with (S754_zero false).
  destruct (is_finite_SF x Hx) as [[s ->]|(s & m & e & ->)].
  - destruct s; reflexivity.
  - unfold SF64sub, SFsub. cbn [negb].
    destruct s; cbn [cond_Zopp];
      match goal with
      | |- binary_normalize _ _ (?a - ?a)%Z _ _ = _ =>
          replace (a - a)%Z with 0%Z by lia; reflexivity
      end.
Qed.

End Zeros.

(** ** Equality up to the sign of zero *)

Section SignOfZero.
Open Scope float_scope.

Lemma same_value_refl (a : float) : same_value a a.
Proof. left. reflexivity. Qed.

Lemma same_value_sym (a b : float) : same_value a b -> same_value b a.
Proof. intros [->|[Ha Hb]]; [left; reflexivity|right; split; assumption]. Qed.

Lemma same_value_trans (a b c : float) :
  same_value a b -> same_value b c -> same_value a c.
Proof.
  intros [->|[Ha Hb]] [->|[Hb' Hc]]; try (left; reflexivity);
    try (right; split; assumption).
Qed.

#[export] Instance same_value_equivalence : Equivalence same_value.
Proof.
  split.
  - exact same_value_refl.
  - exact same_value_sym.
  - exact same_value_trans.
Qed.

(** Two zeros give the same product, sum and difference with any
    double, up to the sign of a zero result. *)
Lemma zeros_mul_l (z z' b : float) :
  is_zero z = true -> is_zero z' = true -> same_value (z * b) (z' * b).
Proof.
  intros Hz Hz'. apply is_zero_SF in Hz, Hz'. destruct Hz as [s Hz], Hz' as [s' Hz'].
  destruct (Prim2SF b) as [sb|sb| |sb mb eb] eqn:Eb.
  - right. split; apply is_zero_SF; rewrite mul_spec, ?Hz, ?Hz', Eb; cbn; eauto.
  - left. apply Prim2SF_inj. rewrite !mul_spec, Hz, Hz', Eb. reflexivity.
  - left. apply Prim2SF_inj. rewrite !mul_spec, Hz, Hz', Eb. reflexivity.
  - right. split; apply is_zero_SF; rewrite mul_spec, ?Hz, ?Hz', Eb; cbn; eauto.
Qed.

Lemma zeros_add_l (z z' b : float) :
  is_zero z = true -> is_zero z' = true -> same_value (z + b) (z' + b).
Proof.
  intros Hz Hz'.
  transitivity b; [apply zero_add, Hz|symmetry; apply zero_add, Hz'].
Qed.

#[export] Instance mul_same_value : Proper (same_value ==> same_value ==> same_value) mul.
Proof.
  intros a a' Ha b b' Hb.
  transitivity (a' * b).
  - destruct Ha as [->|[Ha Ha']]; [reflexivity|]. apply zeros_mul_l; assumption.
  - rewrite (mul_comm a' b), (mul_comm a' b').
    destruct Hb as [->|[Hb Hb']]; [reflexivity|]. apply zeros_mul_l; assumption.
Qed.

#[export] Instance add_same_value : Proper (same_value ==> same_value ==> same_value) add.
Proof.
  intros a a' Ha b b' Hb.
  transitivity (a' + b).
  - destruct Ha as [->|[Ha Ha']]; [reflexivity|]. apply zeros_add_l; assumption.
  - rewrite (add_comm a' b), (add_comm a' b').
    destruct Hb as [->|[Hb Hb']]; [reflexivity|]. apply zeros_add_l; assumption.
Qed.

Lemma is_zero_opp (z : float) : is_zero z = true -> is_zero (- z) = true.
Proof.
  intros Hz. apply is_zero_SF in Hz. destruct Hz as [s Hz].
  apply is_zero_SF. rewrite opp_spec, Hz. cbn. eauto.
Qed.

#[export] Instance opp_same_value : Proper (same_value ==> same_value) opp.
Proof.
  intros a a' [->|[Ha Ha']]; [reflexivity|].
  right. split; apply is_zero_opp; assumption.
Qed.

#[export] Instance sub_same_value : Proper (same_value ==> same_value ==> same_value) sub.
Proof.
  intros a a' Ha b b' Hb. rewrite !sub_add_opp.
  apply add_same_value; [exact Ha|]. apply opp_same_value, Hb.
Qed.

(** A double equal to a non-zero one up to the sign of zero is that
    double. *)
Lemma same_value_eq (a b : float) :
  same_value a b -> is_zero b = false -> a = b.
Proof. intros [->|[_ Hb]] Hn; [reflexivity|congruence]. Qed.

Lemma same_value_zero (a : float) : is_zero a = true <-> same_value a 0.
Proof.
  split.
  - intros Ha. right. split; [exact Ha|reflexivity].
  - intros [->|[Ha _]]; [reflexivity|exact Ha].
Qed.

(** The rewriting rules of the arithmetic of 0 and 1. *)
Lemma sv_zero_add (x : float) : same_value (0 + x) x.
Proof. apply zero_add. reflexivity. Qed.

Lemma sv_add_zero (x : float) : same_value (x + 0) x.
Proof. apply add_zero. reflexivity. Qed.

Lemma sv_sub_zero (x : float) : same_value (x - 0) x.
Proof.
  rewrite sub_add_opp. apply add_zero. reflexivity.
Qed.

Lemma sv_zero_sub (x : float) : same_value (0 - x) (- x).
Proof. rewrite sub_add_opp. apply zero_add. reflexivity. Qed.

Lemma sv_opp_zero : same_value (- 0) 0.
Proof. right. split; reflexivity. Qed.

Lemma sv_mul_zero_l (x : float) : is_finite x = true -> same_value (0 * x) 0.
Proof. intros Hx. apply same_value_zero, mul_zero_l, Hx. Qed.

Lemma sv_mul_zero_r (x : float) : is_finite x = true -> same_value (x * 0) 0.
Proof. intros Hx. apply same_value_zero, mul_zero_r, Hx. Qed.

Lemma sv_sub_diag (x : float) : is_finite x = true -> same_value (x - x) 0.
Proof. intros Hx. rewrite (sub_diag x Hx). reflexivity. Qed.

Lemma sv_add_opp_r (x : float) : is_finite x = true -> same_value (x + - x) 0.
Proof. intros Hx. rewrite <- sub_add_opp. apply sv_sub_diag, Hx. Qed.

Lemma sv_add_opp_l (x : float) : is_finite x = true -> same_value (- x + x) 0.
Proof. intros Hx. rewrite add_comm. apply sv_add_opp_r, Hx. Qed.

Lemma is_finite_by_SF (x : float) :
  is_finite x
  = match Prim2SF x with
    | S754_zero _ | S754_finite _ _ _ => true
    | _ => false
    end.
Proof.
  unfold is_finite, is_nan, is_infinity.
  rewrite !FloatAxioms.eqb_spec, abs_spec.
  change (Prim2SF infinity) with (S754_infinity false).
  destruct (Prim2SF x) as [s|s| |s m e]; try (destruct s; reflexivity);
    try reflexivity.
  unfold SFeqb. cbn [SFabs SFcompare].
  rewrite Z.compare_refl, Pos.compare_cont_refl.
  destruct s; reflexivity.
Qed.

Lemma is_finite_opp (x : float) : is_finite x = true -> is_finite (- x) = true.
Proof.
  rewrite !is_finite_by_SF, opp_spec.
  destruct (Prim2SF x); cbn; trivial.
Qed.

Lemma mul_neg_one_l (x : float) : (- (1)) * x = - x.
Proof. rewrite mul_opp_l, mul_one_l. reflexivity. Qed.

Lemma sv_zero_zero : same_value (0 * 0) 0.
Proof. left. reflexivity. Qed.

Lemma one_div_one : 1 / 1 = 1.
Proof. reflexivity. Qed.

End SignOfZero.

(** Unfolds the loops of the matrix code on doubles down to the cells. *)
Ltac matrix_cells :=
  cbv [Matrix.mul_matrix Matrix.mul_cell Matrix.mul_scalar Matrix.transpose
       Matrix.copy Matrix.identity Matrix.translation Matrix.scaling
       Matrix.transform_vector4 Matrix.determinant Matrix.new_Matrix4
       Matrix.set Matrix.get fold_left seq nth Nat.mul Nat.add
       Matrix.M00 Matrix.M01 Matrix.M02 Matrix.M03 Matrix.M10 Matrix.M11 Matrix.M12
       Matrix.M13 Matrix.M20 Matrix.M21 Matrix.M22 Matrix.M23 Matrix.M30 Matrix.M31
       Matrix.M32 Matrix.M33
       sadd ssub smul sdiv sopp s0 s1 binary64].

(** The rules of a finite double [x]: its products with 0 and its
    differences with itself are zeros. *)
Ltac finite_rules x Hx :=
  pose proof (sv_mul_zero_l x Hx);
  pose proof (sv_mul_zero_r x Hx);
  pose proof (sv_mul_zero_l (- x)%float (is_finite_opp x Hx));
  pose proof (sv_mul_zero_r (- x)%float (is_finite_opp x Hx));
  pose proof (sv_sub_diag x Hx);
  pose proof (sv_add_opp_l x Hx);
  pose proof (sv_add_opp_r x Hx).

(** One step of the arithmetic of 0 and 1, up to the sign of zero. *)
Ltac zero_one_step :=
  match goal with
  | H : same_value ?l _ |- context [?l] => rewrite H
  | |- context [(1 * ?t)%float] => rewrite (mul_one_l t)
  | |- context [(?t * 1)%float] => rewrite (mul_one_r t)
  | |- context [(0 * 0)%float] => rewrite sv_zero_zero
  | |- context [(0 + ?t)%float] => rewrite (sv_zero_add t)
  | |- context [(?t + 0)%float] => rewrite (sv_add_zero t)
  | |- context [(?t - 0)%float] => rewrite (sv_sub_zero t)
  | |- context [(0 - ?t)%float] => rewrite (sv_zero_sub t)
  | |- context [(- 0)%float] => rewrite sv_opp_zero
  | |- context [(- (1) * ?t)%float] => rewrite (mul_neg_one_l t)
  | |- context [(- - ?t)%float] => rewrite (opp_involutive t)
  end.

Ltac zero_one := repeat zero_one_step.


(** Closes a goal [a <> b] between closed doubles by evaluation. *)
Ltac float_neq :=
  apply eqb_false_neq; vm_compute; reflexivity.

(** ** C1: forces and torques against the mass *)

Section ForceAndTorque.
Import Rigidbody.
Open Scope float_scope.

(** C1: the claim holds an entity with [mass <= 0] immovable, and the
    code does not: an entity of mass [-1] has [mass <= 0], and
    [apply_force] with the force (1, 0) takes its velocity from 0 to -1
    and [apply_torque] with the torque -1 takes its rotation from 0 to
    1.  The guard of both functions is [mass == 0], while the collision
    code of the same repository treats every [mass <= 0] as immovable. *)
Lemma C1_negative_mass_is_moved :
  let e := mkEntity 0 0 0 0 (-1) 0 true 0 in
  (mass e <=? 0) = true
  /\ apply_force e (Vector2.mk 1 0) = mkEntity 0 0 (-1) 0 (-1) 0 true 0
  /\ vx (apply_force e (Vector2.mk 1 0)) <> vx e
  /\ apply_torque 1 e (-1) = Some (mkEntity 0 0 0 0 (-1) 1 true 0)
  /\ rotation (mkEntity 0 0 0 0 (-1) 1 true 0) <> rotation e.
Proof.
  cbv zeta. repeat split; try (vm_compute; reflexivity); simpl; float_neq.
Qed.

(** A rotation that is already in [0, 2*M_PI) goes through the two
    loops untouched, whatever the number of iterations allowed. *)
Lemma wrap_rotation_canonical (fuel : nat) (r : float) :
  canonical_rotation r = true -> wrap_rotation fuel r = Some r.
Proof.
  unfold canonical_rotation. intros Hc.
  apply andb_true_iff in Hc as [Hlo Hhi].
  apply ltb_not_leb in Hhi. apply leb_not_ltb in Hlo.
  unfold wrap_rotation.
  assert (Hd : wrap_down fuel r = Some r) by (destruct fuel; simpl; now rewrite Hhi).
  rewrite Hd. destruct fuel; simpl; now rewrite Hlo.
Qed.

(** X30: with [mass == 0] (either zero) [apply_force] and
    [apply_torque] leave the entity as it is; with [mass > 0]
    [apply_force] adds [force / mass] to the velocity and [apply_torque]
    adds [torque / mass] to the rotation, which is then wrapped by the
    two loops (and is the sum itself when that is already in
    [0, 2*M_PI)). *)
Theorem force_and_torque_by_mass
  (e : Entity) (force : Vector2.t) (torque : float) (fuel : nat) :
  let pushed := set_velocity e (vx e + Vector2.x force / mass e)
                               (vy e + Vector2.y force / mass e) in
  let sum := rotation e + torque / mass e in
  let turned := option_map (set_rotation e) (wrap_rotation fuel sum) in
  ((mass e =? 0) = true ->
     apply_force e force = e /\ apply_torque fuel e torque = Some e)
  /\ ((0 <? mass e) = true ->
     apply_force e force = pushed /\ apply_torque fuel e torque = turned)
  /\ ((0 <? mass e) = true -> canonical_rotation sum = true ->
     apply_torque fuel e torque = Some (set_rotation e sum)).
Proof.
  cbv zeta.
  assert (Hmoved : (mass e =? 0) = false ->
            apply_force e force
              = set_velocity e (vx e + Vector2.x force / mass e)
                               (vy e + Vector2.y force / mass e)
            /\ apply_torque fuel e torque
               = option_map (set_rotation e)
                            (wrap_rotation fuel (rotation e + torque / mass e))).
  { intros Hm. unfold apply_force, apply_torque, wrap_rotation. rewrite Hm.
    split; [reflexivity|].
    destruct (wrap_down fuel _) as [r|]; [|reflexivity].
    destruct (wrap_up fuel r); reflexivity. }
  split; [|split]; intros Hm.
  - unfold apply_force, apply_torque. rewrite Hm. split; reflexivity.
  - apply Hmoved, ltb_not_eqb, Hm.
  - intros Hc. apply ltb_not_eqb in Hm. destruct (Hmoved Hm) as [_ Ht].
    rewrite Ht, (wrap_rotation_canonical fuel _ Hc). reflexivity.
Qed.

(** The theorem at a body of mass 0 and at a body of mass 2, each
    pushed by (4, 6) and turned by 1. *)
Lemma force_and_torque_by_mass_witness :
  (apply_force (mkEntity 0 0 1 1 0 0 true 0) (Vector2.mk 4 6)
     = mkEntity 0 0 1 1 0 0 true 0
   /\ apply_torque 1 (mkEntity 0 0 1 1 0 0 true 0) 1
     = Some (mkEntity 0 0 1 1 0 0 true 0))
  /\ (apply_force (mkEntity 0 0 1 1 2 0 true 0) (Vector2.mk 4 6)
        = mkEntity 0 0 3 4 2 0 true 0
      /\ apply_torque 1 (mkEntity 0 0 1 1 2 0 true 0) 1
        = Some (mkEntity 0 0 1 1 2 0.5 true 0))
  /\ apply_torque 0 (mkEntity 0 0 1 1 2 0.25 true 0) 1
     = Some (mkEntity 0 0 1 1 2 0.75 true 0).
Proof.
  split; [|split].
  - exact (proj1 (force_and_torque_by_mass
                    (mkEntity 0 0 1 1 0 0 true 0) (Vector2.mk 4 6) 1 1)
                 eq_refl).
  - exact (proj1 (proj2 (force_and_torque_by_mass
                           (mkEntity 0 0 1 1 2 0 true 0) (Vector2.mk 4 6) 1 1))
                 eq_refl).
  - exact (proj2 (proj2 (force_and_torque_by_mass
                           (mkEntity 0 0 1 1 2 0.25 true 0)
                           (Vector2.mk 4 6) 1 0))
                 eq_refl eq_refl).
Defined.

End ForceAndTorque.

(** ** C2: division of a vector by a zero scalar *)

Section DivisionByZero.
Open Scope float_scope.

(** C2, as stated, fails on the class operators: [Vector2(1, 2) / 0.0]
    raises [ZeroDivisionError] in the fast and in the exact draft. *)
Lemma C2_class_division_raises :
  Fast.Vector2.__truediv__ (Vector2.mk 1 2) 0 = Raised ZeroDivisionError
  /\ Exact.Vector2.__truediv__ (Vector2.mk 1 2) (Number 0) = Raised ZeroDivisionError.
Proof. split; reflexivity. Qed.

(** C2, amended: for a scalar equal to zero, the struct-level
    [vec2_div], [vec3_div] and [vec4_div] return the zero vector of
    their dimension and raise nothing, while the operators [/] of the
    classes [Vector2], [Vector3] and [Vector4] raise
    [ZeroDivisionError], in the fast and in the exact draft.  Dividing
    by a vector whose components are all zero gives the zero vector in
    the fast draft ([Vector3], [Vector4]). *)
Theorem C2_division_by_zero_scalar
  (scalar : float) (a2 : Vec2.t) (a3 : Vec3.t) (a4 : Vec4.t)
  (v2 : Vector2.t) (v3 : Vector3.t) (v4 : Vector4.t) :
  (scalar =? 0) = true ->
  (Fast.vec2_div a2 scalar = Vec2.mk 0 0
   /\ Fast.vec3_div a3 scalar = Vec3.mk 0 0 0
   /\ Fast.vec4_div a4 scalar = Vec4.mk 0 0 0 0)
  /\ (Fast.Vector2.__truediv__ v2 scalar = Raised ZeroDivisionError
      /\ Fast.Vector3.__truediv__ v3 (Number scalar) = Raised ZeroDivisionError
      /\ Fast.Vector4.__truediv__ v4 (Number scalar) = Raised ZeroDivisionError)
  /\ (Exact.Vector2.__truediv__ v2 (Number scalar) = Raised ZeroDivisionError
      /\ Exact.Vector3.__truediv__ v3 (Number scalar) = Raised ZeroDivisionError
      /\ Exact.Vector4.__truediv__ v4 (Number scalar) = Raised ZeroDivisionError)
  /\ (Fast.Vector3.__truediv__ v3 (Same (Vector3.mk scalar scalar scalar))
        = Returned (Vector3.mk 0 0 0)
      /\ Fast.Vector4.__truediv__ v4 (Same (Vector4.mk scalar scalar scalar scalar))
        = Returned (Vector4.mk 0 0 0 0)).
Proof.
  intros Hz.
  unfold Fast.vec2_div, Fast.vec3_div, Fast.vec4_div,
    Fast.Vector2.__truediv__, Fast.Vector3.__truediv__, Fast.Vector4.__truediv__,
    Fast.Vector3.div_or_zero, Fast.Vector4.div_or_zero,
    Exact.Vector2.__truediv__, Exact.Vector3.__truediv__, Exact.Vector4.__truediv__,
    Exact.checked_div.
  simpl. rewrite Hz. repeat split.
Qed.

(** The theorem at the scalar [-0.0] and the vectors of ones. *)
Lemma C2_division_by_zero_scalar_witness :
  (Fast.vec2_div (Vec2.mk 1 1) (-0) = Vec2.mk 0 0
   /\ Fast.vec3_div (Vec3.mk 1 1 1) (-0) = Vec3.mk 0 0 0
   /\ Fast.vec4_div (Vec4.mk 1 1 1 1) (-0) = Vec4.mk 0 0 0 0)
  /\ (Fast.Vector2.__truediv__ (Vector2.mk 1 1) (-0) = Raised ZeroDivisionError
      /\ Fast.Vector3.__truediv__ (Vector3.mk 1 1 1) (Number (-0))
         = Raised ZeroDivisionError
      /\ Fast.Vector4.__truediv__ (Vector4.mk 1 1 1 1) (Number (-0))
         = Raised ZeroDivisionError)
  /\ (Exact.Vector2.__truediv__ (Vector2.mk 1 1) (Number (-0))
      = Raised ZeroDivisionError
      /\ Exact.Vector3.__truediv__ (Vector3.mk 1 1 1) (Number (-0))
         = Raised ZeroDivisionError
      /\ Exact.Vector4.__truediv__ (Vector4.mk 1 1 1 1) (Number (-0))
         = Raised ZeroDivisionError)
  /\ (Fast.Vector3.__truediv__ (Vector3.mk 1 1 1) (Same (Vector3.mk (-0) (-0) (-0)))
        = Returned (Vector3.mk 0 0 0)
      /\ Fast.Vector4.__truediv__ (Vector4.mk 1 1 1 1)
                                  (Same (Vector4.mk (-0) (-0) (-0) (-0)))
        = Returned (Vector4.mk 0 0 0 0)).
Proof.
  exact (C2_division_by_zero_scalar (-0) (Vec2.mk 1 1) (Vec3.mk 1 1 1)
           (Vec4.mk 1 1 1 1) (Vector2.mk 1 1) (Vector3.mk 1 1 1)
           (Vector4.mk 1 1 1 1) eq_refl).
Defined.

End DivisionByZero.

(** ** C3: normalize *)

Section Normalize.
Open Scope float_scope.












(** Outside such a range no bound on the length can hold.  The squared
    length of (1e200, 0) overflows to infinity: the bit-level draft
    returns (infinity, nan), the division-based draft (nan, nan) and
    the exact draft (0, 0).  The squared length of (1e-160, 0) is a
    subnormal number: the exact draft returns a vector of length
    1.0000055.... *)
Example normalize_out_of_range :
  (Fast.Vector2.normalize (Vector2.mk 1e200 0) = Vector2.mk infinity nan
   /\ Newton.Vector2.normalize (Vector2.mk 1e200 0) = Vector2.mk nan nan
   /\ Exact.Vector2.normalize (Vector2.mk 1e200 0) = Vector2.mk 0 0)
  /\ ((0 <? sqrt (1e-160 * 1e-160 + 0 * 0)) = true
      /\ Exact.Vector2.normalize (Vector2.mk 1e-160 0)
         = Vector2.mk 0x1.00005d63be25dp+0 0
      /\ within 1e-6 0x1.00005d63be25dp+0 1 = false).
Proof. repeat split; vm_compute; reflexivity. Qed.




End Normalize.

(** ** C4, C8, C10: collision response *)

Section CollisionResponse.
Import Rigidbody Collision.
Open Scope float_scope.

(** C4: the elastic head-on collision of two unit bodies.  One pass
    exchanges the velocities along the normal (A.vx = -1 and B.vx = 1,
    exactly) and leaves the centers at distance 2, the sum of the
    radii. *)
Theorem C4_elastic_head_on :
  let A := mkEntity 0 0 1 0 1 0 true 1 in
  let B := mkEntity 1.5 0 (-1) 0 1 0 true 1 in
  let A' := mkEntity (-0.25) 0 (-1) 0 1 0 true 1 in
  let B' := mkEntity 1.75 0 1 0 1 0 true 1 in
  resolve_collisions [A; B] 1.0 = [A'; B']
  /\ vx A' = -1 /\ vx B' = 1
  /\ center_distance A' B' = 2
  /\ (radius A' + radius B' <=? center_distance A' B') = true.
Proof.
  cbv zeta. repeat split; vm_compute; reflexivity.
Qed.

(** C8: in a colliding, non-degenerate pair of which exactly one entity
    has [mass > 0], that entity leaves with the velocity
    [restitution * (v - 2 (v . n) n)], and the other entity is left as
    it was, velocity included. *)
Theorem C8_single_mass_reflection (e1 e2 : Entity) (restitution : float) :
  check_collision (x e1) (y e1) (radius e1) (x e2) (y e2) (radius e2) = true ->
  (center_distance_sq e1 e2 <? 0.0001) = false ->
  xorb (0 <? mass e1) (0 <? mass e2) = true ->
  let n := collision_normal e1 e2 in
  let after := _handle_collision e1 e2 restitution in
  if 0 <? mass e1
  then velocity (fst after) = reflected restitution (velocity e1) n
       /\ velocity (snd after) = velocity e2 /\ snd after = e2
  else velocity (snd after) = reflected restitution (velocity e2) n
       /\ velocity (fst after) = velocity e1 /\ fst after = e1.
Proof.
  intros _ Hfar Hone. cbv zeta.
  unfold _handle_collision, collision_normal, center_distance, reflected, velocity.
  unfold center_distance_sq in *. rewrite Hfar.
  destruct (0 <? mass e1) eqn:H1, (0 <? mass e2) eqn:H2;
    simpl in Hone; try discriminate; simpl; repeat split.
Qed.

(** The theorem at a body of mass 1 falling at (0, -5) on a static body
    of mass 0 right below it, with restitution 0.8: the y-velocity
    turns from -5 to 4, and the static body keeps its velocity. *)
Lemma C8_single_mass_reflection_witness :
  velocity (fst (_handle_collision (mkEntity 0 1 0 (-5) 1 0 true 1)
                                   (mkEntity 0 0 0 0 0 0 true 1) 0.8))
    = reflected 0.8 (0, -5) (0 / 1, -1 / 1)
  /\ velocity (snd (_handle_collision (mkEntity 0 1 0 (-5) 1 0 true 1)
                                      (mkEntity 0 0 0 0 0 0 true 1) 0.8))
     = (0, 0)
  /\ snd (_handle_collision (mkEntity 0 1 0 (-5) 1 0 true 1)
                            (mkEntity 0 0 0 0 0 0 true 1) 0.8)
     = mkEntity 0 0 0 0 0 0 true 1.
Proof.
  exact (C8_single_mass_reflection
           (mkEntity 0 1 0 (-5) 1 0 true 1) (mkEntity 0 0 0 0 0 0 true 1) 0.8
           eq_refl eq_refl eq_refl).
Defined.

(** The reflection of the witness, evaluated: (0, -5) becomes (0, 4). *)
Example reflection_below_flips_and_scales :
  reflected 0.8 (0, -5) (0 / 1, -1 / 1) = (0, 4).
Proof. vm_compute. reflexivity. Qed.

(** C10: when both entities have [mass <= 0] and the squared distance
    of the centers is at least 1e-4, [_handle_collision] changes no
    field of either entity, and a pass over the two of them returns
    them as they were: the overlapping pair is not separated. *)
Theorem C10_two_immovable_bodies_untouched (e1 e2 : Entity) (response_coef : float) :
  (mass e1 <=? 0) = true ->
  (mass e2 <=? 0) = true ->
  (0.0001 <=? center_distance_sq e1 e2) = true ->
  _handle_collision e1 e2 response_coef = (e1, e2)
  /\ resolve_collisions [e1; e2] response_coef = [e1; e2].
Proof.
  intros H1 H2 Hfar.
  apply leb_not_ltb in H1, H2, Hfar.
  assert (Hh : _handle_collision e1 e2 response_coef = (e1, e2)).
  { unfold _handle_collision. unfold center_distance_sq in Hfar.
    rewrite Hfar, H1, H2. reflexivity. }
  split; [exact Hh|].
  unfold resolve_collisions, resolve_from, resolve_pair. simpl.
  rewrite Hh.
  destruct (active e1) eqn:A1, (active e2) eqn:A2; simpl;
    rewrite ?A1, ?A2; simpl; try reflexivity.
  destruct ((radius e1 + radius e2) * (radius e1 + radius e2) <? _);
    simpl; rewrite ?A1, ?A2; reflexivity.
Qed.

(** The theorem at two overlapping static bodies of mass 0 and radius 1
    whose centers are 1 apart. *)
Lemma C10_two_immovable_bodies_untouched_witness :
  _handle_collision (mkEntity 0 0 1 0 0 0 true 1) (mkEntity 1 0 0 1 0 0 true 1) 0.8
    = (mkEntity 0 0 1 0 0 0 true 1, mkEntity 1 0 0 1 0 0 true 1)
  /\ resolve_collisions [mkEntity 0 0 1 0 0 0 true 1; mkEntity 1 0 0 1 0 0 true 1] 0.8
    = [mkEntity 0 0 1 0 0 0 true 1; mkEntity 1 0 0 1 0 0 true 1].
Proof.
  exact (C10_two_immovable_bodies_untouched
           (mkEntity 0 0 1 0 0 0 true 1) (mkEntity 1 0 0 1 0 0 true 1) 0.8
           eq_refl eq_refl eq_refl).
Defined.

End CollisionResponse.

(** ** C9: the range of the rotation after a torque *)

Section RotationRange.
Import Rigidbody.
Open Scope float_scope.

(** Subtracting [2*M_PI] from 1e17 gives 1e17 back: the spacing of the
    doubles around 1e17 is 16. *)
Lemma wrap_down_stuck (fuel : nat) : wrap_down fuel 1e17 = None.
Proof.
  induction fuel as [|fuel IH]; [reflexivity|].
  change (wrap_down (S fuel) 1e17) with (wrap_down fuel (1e17 - two_pi)).
  replace (1e17 - two_pi) with 1e17 by (vm_compute; reflexivity).
  exact IH.
Qed.

(** C9 fails on the code.  An entity of mass 1 and rotation 0 that
    receives the finite torque 1e17 never leaves the first wrapping
    loop, whatever the number of iterations allowed; and with the
    torque -1e-20 the call returns with the rotation equal to [2*M_PI],
    which is outside [0, 2*M_PI). *)
Theorem C9_rotation_not_canonicalized :
  let e := mkEntity 0 0 0 0 1 0 true 0 in
  ((0 <? mass e) = true /\ is_finite (rotation e) = true
   /\ is_finite 1e17 = true /\ is_finite (-1e-20) = true)
  /\ (forall fuel, apply_torque fuel e 1e17 = None)
  /\ (forall fuel, apply_torque (S fuel) e (-1e-20) = Some (set_rotation e two_pi))
  /\ canonical_rotation two_pi = false.
Proof.
  cbv zeta. split; [repeat split|split; [|split]].
  - intros fuel. unfold apply_torque. simpl mass. simpl rotation.
    change (1 =? 0) with false. cbv iota.
    replace (0 + 1e17 / 1) with 1e17 by (vm_compute; reflexivity).
    rewrite wrap_down_stuck. reflexivity.
  - intros fuel. destruct fuel; vm_compute; reflexivity.
  - vm_compute. reflexivity.
Qed.

End RotationRange.

(** ** C7: the iterations of the fast inverse square root *)

Section InverseSquareRoot.
Open Scope float_scope.

(** C7, as stated, fails on the division-based draft: at x = 13 its
    result, 0.27735009811261452, is one refinement of [1 / sqrt x];
    two refinements give 0.27735009811261457, from that estimate, and
    0.27735009041001701 from the bit-level one. *)
Lemma C7_division_draft_refines_once :
  (0 <? 13) = true
  /\ Newton.fast_invsqrt 13 = Nat.iter 1 (newton_raphson_step 13) (division_estimate 13)
  /\ Newton.fast_invsqrt 13 <> Nat.iter 2 (newton_raphson_step 13) (division_estimate 13)
  /\ Newton.fast_invsqrt 13
     <> Nat.iter 2 (newton_raphson_step 13) (bit_estimate 13).
Proof.
  repeat match goal with |- _ /\ _ => split end;
    try (vm_compute; reflexivity); float_neq.
Qed.

(** C7, amended: for every x > 0, the bit-level draft returns its
    bit-level estimate refined by exactly two Newton-Raphson iterations
    [y = y * (1.5 - 0.5 * x * y * y)], and the division-based draft
    returns the estimate [1 / sqrt x] refined by exactly one. *)
Theorem C7_newton_iterations (x : float) :
  (0 <? x) = true ->
  Fast.fast_invsqrt x = Nat.iter 2 (newton_raphson_step x) (bit_estimate x)
  /\ Newton.fast_invsqrt x = Nat.iter 1 (newton_raphson_step x) (division_estimate x).
Proof.
  intros Hx. apply ltb_not_leb in Hx.
  unfold Fast.fast_invsqrt, Newton.fast_invsqrt, newton_raphson_step,
    division_estimate.
  rewrite Hx. cbv [Nat.iter nat_rect]. rewrite (mul_comm x 0.5).
  split; reflexivity.
Qed.

(** The theorem at x = 4: both drafts, evaluated. *)
Lemma C7_newton_iterations_witness :
  Fast.fast_invsqrt 4 = Nat.iter 2 (newton_raphson_step 4) (bit_estimate 4)
  /\ Newton.fast_invsqrt 4 = Nat.iter 1 (newton_raphson_step 4) (division_estimate 4).
Proof. exact (C7_newton_iterations 4 eq_refl). Defined.

End InverseSquareRoot.

(** ** C5, C6: the inverse of a Matrix4 *)

Section MatrixInverse.

Lemma list16 {A : Type} (l : list A) :
  length l = 16 ->
  exists a0 a1 a2 a3 a4 a5 a6 a7 a8 a9 a10 a11 a12 a13 a14 a15,
    l = [a0; a1; a2; a3; a4; a5; a6; a7; a8; a9; a10; a11; a12; a13; a14; a15].
Proof.
  intros H.
  do 16 (destruct l as [|? l]; [discriminate H|]).
  destruct l; [|discriminate H].
  repeat eexists.
Qed.

(** C5: on doubles, [inverse] raises (the [ValueError] that the
    specification calls DomainError) exactly when
    [abs(determinant) < 1e-10], and returns a matrix of 16 cells
    whenever [abs(determinant) >= 1e-10]. *)
Theorem C5_inverse_raises_iff_singular (M : list float) :
  (Matrix.inverse M = inl ValueError
   <-> (abs (Matrix.determinant M) <? 1e-10)%float = true)
  /\ ((1e-10 <=? abs (Matrix.determinant M))%float = true ->
      exists Minv, Matrix.inverse M = inr Minv /\ length Minv = 16).
Proof.
  change (abs (Matrix.determinant M) <? 1e-10)%float
    with (sabs (Matrix.determinant M) <? singular_eps)%scalar.
  split.
  - unfold Matrix.inverse.
    destruct (sabs (Matrix.determinant M) <? singular_eps)%scalar;
      split; intros E; try reflexivity; discriminate E.
  - intros Hge. apply leb_not_ltb in Hge.
    change (abs (Matrix.determinant M) <? 1e-10)%float
      with (sabs (Matrix.determinant M) <? singular_eps)%scalar in Hge.
    unfold Matrix.inverse. rewrite Hge.
    eexists. split; reflexivity.
Qed.

(** The theorem at the translation by (1, 2, 3), of determinant 1. *)
Lemma C5_inverse_raises_iff_singular_witness :
  exists Minv,
    Matrix.inverse [1; 0; 0; 1;  0; 1; 0; 2;  0; 0; 1; 3;  0; 0; 0; 1]%float
      = inr Minv
    /\ length Minv = 16.
Proof.
  exact (proj2 (C5_inverse_raises_iff_singular
                  [1; 0; 0; 1;  0; 1; 0; 2;  0; 0; 1; 3;  0; 0; 0; 1]%float)
               eq_refl).
Defined.


(** *** Translations, which the code inverts without rounding *)

Open Scope float_scope.

Lemma determinant_of_translation (x y z : float) :
  is_finite x = true -> is_finite y = true -> is_finite z = true ->
  Matrix.determinant (Matrix.translation x y z) = 1.
Proof.
  intros Hx Hy Hz.
  apply same_value_eq; [|reflexivity].
  finite_rules x Hx. finite_rules y Hy. finite_rules z Hz.
  matrix_cells. zero_one. reflexivity.
Qed.


(** On doubles the inverse of a translation by finite offsets is, up to
    the sign of zero, the translation by the opposite offsets. *)
Lemma inverse_of_translation (x y z : float) :
  is_finite x = true -> is_finite y = true -> is_finite z = true ->
  exists Minv,
    Matrix.inverse (Matrix.translation x y z) = inr Minv
    /\ Forall2 same_value Minv (Matrix.translation (- x) (- y) (- z)).
Proof.
  intros Hx Hy Hz.
  unfold Matrix.inverse.
  rewrite (determinant_of_translation x y z Hx Hy Hz).
  change (sltb (sabs 1) singular_eps) with false. cbv iota.
  eexists. split; [reflexivity|].
  finite_rules x Hx. finite_rules y Hy. finite_rules z Hz.
  matrix_cells. rewrite one_div_one.
  repeat (constructor; [zero_one; reflexivity|]). constructor.
Qed.


Lemma translation_times_inverse (x y z : float) (Minv : list float) :
  is_finite x = true -> is_finite y = true -> is_finite z = true ->
  Forall2 same_value Minv (Matrix.translation (- x) (- y) (- z)) ->
  Forall2 same_value (Matrix.mul_matrix (Matrix.translation x y z) Minv)
          Matrix.identity
  /\ Forall2 same_value (Matrix.mul_matrix Minv (Matrix.translation x y z))
             Matrix.identity.
Proof.
  intros Hx Hy Hz HM.
  assert (L : length Minv = 16%nat) by (apply Forall2_length in HM; exact HM).
  destruct (list16 Minv L) as
    (m0&m1&m2&m3&m4&m5&m6&m7&m8&m9&m10&m11&m12&m13&m14&m15&->).
  revert HM. matrix_cells. intros HM.
  repeat match goal with
         | H : Forall2 _ (_ :: _) (_ :: _) |- _ =>
             inversion H as [|? ? ? ? ? ?]; subst; clear H
         | H : Forall2 _ [] [] |- _ => clear H
         end.
  finite_rules x Hx. finite_rules y Hy. finite_rules z Hz.
  split.
  - repeat (constructor; [zero_one; reflexivity|]). constructor.
  - repeat (constructor; [zero_one; reflexivity|]). constructor.
Qed.



(** *** Small integer blocks, inverted one by one *)










End MatrixInverse.

(* ================================================================= *)
(** * Part III: further properties of the code *)
(* ================================================================= *)

(** ** Vector arithmetic *)

Section VectorArithmetic.
Open Scope float_scope.





(** X2: Swapping the operands of a cross product negates it: each component
    of [cross(b, a)] is the opposite of that of [cross(a, b)] (two zero
    components may both be [+0.0]). *)
Theorem cross_products_are_antisymmetric
  (a2 b2 : Vec2.t) (a3 b3 : Vec3.t) (u2 v2 : Vector2.t) (u3 v3 : Vector3.t) :
  opposite_of (Fast.vec2_cross a2 b2) (Fast.vec2_cross b2 a2)
  /\ (opposite_of (Vec3.x (Fast.vec3_cross a3 b3)) (Vec3.x (Fast.vec3_cross b3 a3))
      /\ opposite_of (Vec3.y (Fast.vec3_cross a3 b3)) (Vec3.y (Fast.vec3_cross b3 a3))
      /\ opposite_of (Vec3.z (Fast.vec3_cross a3 b3)) (Vec3.z (Fast.vec3_cross b3 a3)))
  /\ opposite_of (Fast.Vector2.cross u2 v2) (Fast.Vector2.cross v2 u2)
  /\ (opposite_of (Vector3.x (Fast.Vector3.cross u3 v3))
                  (Vector3.x (Fast.Vector3.cross v3 u3))
      /\ opposite_of (Vector3.y (Fast.Vector3.cross u3 v3))
                     (Vector3.y (Fast.Vector3.cross v3 u3))
      /\ opposite_of (Vector3.z (Fast.Vector3.cross u3 v3))
                     (Vector3.z (Fast.Vector3.cross v3 u3)))
  /\ (opposite_of (Vector3.x (Exact.Vector3.cross u3 v3))
                  (Vector3.x (Exact.Vector3.cross v3 u3))
      /\ opposite_of (Vector3.y (Exact.Vector3.cross u3 v3))
                     (Vector3.y (Exact.Vector3.cross v3 u3))
      /\ opposite_of (Vector3.z (Exact.Vector3.cross u3 v3))
                     (Vector3.z (Exact.Vector3.cross v3 u3))).
Proof.
  unfold Fast.vec2_cross, Fast.vec3_cross, Fast.Vector2.cross, Fast.Vector3.cross,
    Exact.Vector3.cross.
  cbn [Vec3.x Vec3.y Vec3.z Vector3.x Vector3.y Vector3.z].
  repeat match goal with |- _ /\ _ => split end;
    match goal with
    | |- opposite_of (?p * ?q - ?r * ?t) _ =>
        rewrite (mul_comm t r), (mul_comm q p); apply sub_antisym
    end.
Qed.

(** X3: [vec2_approx_equal] does not depend on the order of the two vectors,
    nor on the sign of the tolerance. *)
Theorem approx_equal_is_symmetric (a b : Vec2.t) (epsilon : float) :
  Fast.vec2_approx_equal a b epsilon = Fast.vec2_approx_equal b a epsilon
  /\ Fast.vec2_approx_equal a b (- epsilon) = Fast.vec2_approx_equal a b epsilon.
Proof.
  unfold Fast.vec2_approx_equal. cbv zeta. split.
  - rewrite (sub_sqr_sym (Vec2.x a) (Vec2.x b)), (sub_sqr_sym (Vec2.y a) (Vec2.y b)).
    reflexivity.
  - rewrite mul_opp_opp. reflexivity.
Qed.


(** X5: On [Vector2], for operands without NaN components, [a - b] is
    [a + (-b)], bit for bit; and [-(-a)] is [a] (negation only flips
    the sign bit).  With a NaN component in [b] the two sides are both
    NaN there, of opposite signs on the hardware: that case is left
    out. *)
Theorem negation_and_subtraction (a b : Vector2.t) :
  numbers [Vector2.x a; Vector2.y a; Vector2.x b; Vector2.y b] ->
  Fast.Vector2.__sub__ a b = Fast.Vector2.__add__ a (Fast.Vector2.__neg__ b)
  /\ Fast.Vector2.__neg__ (Fast.Vector2.__neg__ a) = a.
Proof.
  intros _.
  unfold Fast.Vector2.__sub__, Fast.Vector2.__add__, Fast.Vector2.__neg__.
  cbn [Vector2.x Vector2.y]. rewrite !sub_add_opp, !opp_involutive.
  destruct a; split; reflexivity.
Qed.

(** The theorem at (infinity, -0.0) and (infinity, 0.25): the first
    component of the difference is the NaN of [inf - inf]. *)
Lemma negation_and_subtraction_witness :
  Fast.Vector2.__sub__ (Vector2.mk infinity (-0)) (Vector2.mk infinity 0.25)
  = Fast.Vector2.__add__ (Vector2.mk infinity (-0))
                         (Fast.Vector2.__neg__ (Vector2.mk infinity 0.25))
  /\ Fast.Vector2.__neg__ (Fast.Vector2.__neg__ (Vector2.mk infinity (-0)))
     = Vector2.mk infinity (-0).
Proof.
  apply (negation_and_subtraction (Vector2.mk infinity (-0)) (Vector2.mk infinity 0.25)).
  repeat (constructor; [reflexivity|]). constructor.
Defined.

(** X6: A vector that [is_zero] accepts is normalized to the zero vector
    (struct and class of the fast draft). *)
Theorem zero_vectors_normalize_to_zero (a : Vec2.t) (v : Vector2.t) :
  Fast.vec2_is_zero a = true ->
  Fast.Vector2.is_zero v = true ->
  Fast.vec2_normalize a = Vec2.mk 0 0
  /\ Fast.Vector2.normalize v = Vector2.mk 0 0.
Proof.
  unfold Fast.vec2_is_zero, Fast.Vector2.is_zero, Fast.vec2_normalize,
    Fast.Vector2.normalize.
  intros Ha Hv. apply ltb_not_ltb in Ha, Hv. cbv zeta. rewrite Ha, Hv.
  split; reflexivity.
Qed.

Lemma zero_vectors_normalize_to_zero_witness :
  Fast.vec2_normalize (Vec2.mk 1e-6 (-1e-6)) = Vec2.mk 0 0
  /\ Fast.Vector2.normalize (Vector2.mk 1e-6 (-1e-6)) = Vector2.mk 0 0.
Proof.
  exact (zero_vectors_normalize_to_zero
           (Vec2.mk 1e-6 (-1e-6)) (Vector2.mk 1e-6 (-1e-6)) eq_refl eq_refl).
Defined.

(** X7: Dividing a vector by a vector: the fast draft never raises (a zero
    divisor component gives a zero component), the exact draft raises
    [ZeroDivisionError] exactly when a component of the divisor is zero,
    and otherwise divides component by component. *)
Theorem division_by_a_vector
  (u2 v2 : Vector2.t) (u3 v3 : Vector3.t) (u4 v4 : Vector4.t) :
  (exists r3 r4,
      Fast.Vector3.__truediv__ u3 (Same v3) = Returned r3
      /\ Fast.Vector4.__truediv__ u4 (Same v4) = Returned r4)
  /\ Exact.Vector2.__truediv__ u2 (Same v2)
     = (if (Vector2.x v2 =? 0) || (Vector2.y v2 =? 0)
        then Raised ZeroDivisionError
        else Returned (Vector2.mk (Vector2.x u2 / Vector2.x v2)
                                  (Vector2.y u2 / Vector2.y v2)))
  /\ Exact.Vector3.__truediv__ u3 (Same v3)
     = (if (Vector3.x v3 =? 0) || (Vector3.y v3 =? 0) || (Vector3.z v3 =? 0)
        then Raised ZeroDivisionError
        else Returned (Vector3.mk (Vector3.x u3 / Vector3.x v3)
                                  (Vector3.y u3 / Vector3.y v3)
                                  (Vector3.z u3 / Vector3.z v3)))
  /\ Exact.Vector4.__truediv__ u4 (Same v4)
     = (if (Vector4.x v4 =? 0) || (Vector4.y v4 =? 0) || (Vector4.z v4 =? 0)
           || (Vector4.w v4 =? 0)
        then Raised ZeroDivisionError
        else Returned (Vector4.mk (Vector4.x u4 / Vector4.x v4)
                                  (Vector4.y u4 / Vector4.y v4)
                                  (Vector4.z u4 / Vector4.z v4)
                                  (Vector4.w u4 / Vector4.w v4))).
Proof.
  split; [|split; [|split]].
  - eexists; eexists. split; reflexivity.
  - unfold Exact.Vector2.__truediv__, Exact.checked_div.
    destruct (Vector2.x v2 =? 0), (Vector2.y v2 =? 0); reflexivity.
  - unfold Exact.Vector3.__truediv__, Exact.checked_div.
    destruct (Vector3.x v3 =? 0), (Vector3.y v3 =? 0), (Vector3.z v3 =? 0);
      reflexivity.
  - unfold Exact.Vector4.__truediv__, Exact.checked_div.
    destruct (Vector4.x v4 =? 0), (Vector4.y v4 =? 0), (Vector4.z v4 =? 0),
      (Vector4.w v4 =? 0); reflexivity.
Qed.

End VectorArithmetic.

(** ** Collision detection and the resolution pass *)

Section CollisionPass.
Import Rigidbody Collision.
Open Scope float_scope.

(** X8: The collision test does not depend on the order of the two bodies. *)
Theorem check_collision_is_symmetric (x1 y1 radius1 x2 y2 radius2 : float) :
  check_collision x1 y1 radius1 x2 y2 radius2
  = check_collision x2 y2 radius2 x1 y1 radius1.
Proof.
  unfold check_collision. cbv zeta.
  rewrite (sub_sqr_sym x2 x1), (sub_sqr_sym y2 y1), (add_comm radius1 radius2).
  reflexivity.
Qed.

Lemma same_body_refl (e : Entity) : same_body e e.
Proof. repeat split. Qed.

Lemma same_body_trans (e1 e2 e3 : Entity) :
  same_body e1 e2 -> same_body e2 e3 -> same_body e1 e3.
Proof.
  unfold same_body. intros (A1 & A2 & A3 & A4) (B1 & B2 & B3 & B4).
  repeat split; congruence.
Qed.

Lemma same_body_sym (e1 e2 : Entity) : same_body e1 e2 -> same_body e2 e1.
Proof. unfold same_body. intros (A1 & A2 & A3 & A4). repeat split; congruence. Qed.

Lemma passed_over_refl (e : Entity) : passed_over e e.
Proof. split; [apply same_body_refl|reflexivity]. Qed.

Lemma passed_over_trans (e1 e2 e3 : Entity) :
  passed_over e1 e2 -> passed_over e2 e3 -> passed_over e1 e3.
Proof.
  intros [S1 I1] [S2 I2]. split; [eapply same_body_trans; eassumption|].
  intros Hi. specialize (I1 Hi). subst e2. exact (I2 Hi).
Qed.

Lemma handle_collision_same_body (e1 e2 : Entity) (response_coef : float) :
  same_body e1 (fst (_handle_collision e1 e2 response_coef))
  /\ same_body e2 (snd (_handle_collision e1 e2 response_coef)).
Proof.
  unfold _handle_collision.
  destruct (_ <? 0.0001); [split; repeat split|].
  destruct (0 <? mass e1), (0 <? mass e2); cbn [andb];
    try (destruct (0 <? _)); split; repeat split.
Qed.

(** X9: [_handle_collision] writes positions and velocities only: mass,
    rotation, radius and the active flag of both entities are kept.  It
    writes no velocity, and no [y], when the centers are closer than
    the degenerate threshold; and it writes no velocity when both bodies
    have mass and are already moving apart along the normal. *)
Theorem handle_collision_frame (e1 e2 : Entity) (response_coef : float) :
  let after := _handle_collision e1 e2 response_coef in
  let n := collision_normal e1 e2 in
  (same_body e1 (fst after) /\ same_body e2 (snd after))
  /\ ((center_distance_sq e1 e2 <? 0.0001) = true ->
      velocity (fst after) = velocity e1 /\ velocity (snd after) = velocity e2
      /\ y (fst after) = y e1 /\ y (snd after) = y e2)
  /\ ((center_distance_sq e1 e2 <? 0.0001) = false ->
      (0 <? mass e1) = true -> (0 <? mass e2) = true ->
      (0 <? (vx e2 - vx e1) * fst n + (vy e2 - vy e1) * snd n) = true ->
      velocity (fst after) = velocity e1 /\ velocity (snd after) = velocity e2).
Proof.
  cbv zeta. split; [apply handle_collision_same_body|].
  unfold _handle_collision, collision_normal, center_distance, center_distance_sq,
    velocity.
  split.
  - intros Hd. rewrite Hd. cbn [fst snd vx vy y set_position].
    repeat split.
  - intros Hd H1 H2 Hs. rewrite Hd, H1, H2. cbn [andb fst snd] in *.
    cbn [vx vy set_position]. rewrite Hs. split; reflexivity.
Qed.

Lemma handle_collision_frame_witness :
  (velocity (fst (_handle_collision (mkEntity 0 0 1 2 1 0 true 1)
                                    (mkEntity 0.001 0 3 4 1 0 true 1) 0.8)) = (1, 2)
   /\ velocity (snd (_handle_collision (mkEntity 0 0 1 2 1 0 true 1)
                                       (mkEntity 0.001 0 3 4 1 0 true 1) 0.8)) = (3, 4)
   /\ y (fst (_handle_collision (mkEntity 0 0 1 2 1 0 true 1)
                                (mkEntity 0.001 0 3 4 1 0 true 1) 0.8)) = 0
   /\ y (snd (_handle_collision (mkEntity 0 0 1 2 1 0 true 1)
                                (mkEntity 0.001 0 3 4 1 0 true 1) 0.8)) = 0)
  /\ (velocity (fst (_handle_collision (mkEntity 0 0 (-1) 0 1 0 true 1)
                                       (mkEntity 1 0 1 0 1 0 true 1) 0.8)) = (-1, 0)
      /\ velocity (snd (_handle_collision (mkEntity 0 0 (-1) 0 1 0 true 1)
                                          (mkEntity 1 0 1 0 1 0 true 1) 0.8)) = (1, 0)).
Proof.
  split.
  - exact (proj1 (proj2 (handle_collision_frame
                           (mkEntity 0 0 1 2 1 0 true 1)
                           (mkEntity 0.001 0 3 4 1 0 true 1) 0.8))
                 eq_refl).
  - exact (proj2 (proj2 (handle_collision_frame
                           (mkEntity 0 0 (-1) 0 1 0 true 1)
                           (mkEntity 1 0 1 0 1 0 true 1) 0.8))
                 eq_refl eq_refl eq_refl eq_refl).
Defined.

(** *** Lists of entities under [store] *)

Lemma nth_error_store (l : list Entity) (i j : nat) (e e' : Entity) :
  nth_error l i = Some e ->
  nth_error (store i e' l) j = if Nat.eqb i j then Some e' else nth_error l j.
Proof.
  revert i j. induction l as [|a l IH]; intros [|i] [|j] Hi; simpl in *;
    try discriminate; try reflexivity.
  apply IH. exact Hi.
Qed.

Lemma Forall2_store (P : Entity -> Entity -> Prop) (l : list Entity)
      (i : nat) (e e' : Entity) :
  (forall a, P a a) ->
  nth_error l i = Some e -> P e e' -> Forall2 P l (store i e' l).
Proof.
  intros Hrefl. revert i. induction l as [|a l IH]; intros [|i] Hi Hp; simpl in *;
    try discriminate.
  - injection Hi as ->. constructor; [exact Hp|].
    clear -Hrefl. induction l; constructor; auto.
  - constructor; [apply Hrefl|]. apply IH; assumption.
Qed.

Lemma Forall2_refl_on (P : Entity -> Entity -> Prop) (l : list Entity) :
  (forall a, P a a) -> Forall2 P l l.
Proof. intros Hrefl. induction l; constructor; auto. Qed.

Lemma Forall2_trans_on (P : Entity -> Entity -> Prop) (l1 l2 l3 : list Entity) :
  (forall a b c, P a b -> P b c -> P a c) ->
  Forall2 P l1 l2 -> Forall2 P l2 l3 -> Forall2 P l1 l3.
Proof.
  intros Htrans H12. revert l3. induction H12; intros l3 H23; inversion H23; subst;
    constructor; eauto.
Qed.

Lemma Forall2_nth_error_l (P : Entity -> Entity -> Prop) (l l' : list Entity)
      (i : nat) (e : Entity) :
  Forall2 P l l' -> nth_error l i = Some e ->
  exists e', nth_error l' i = Some e' /\ P e e'.
Proof.
  intros H. revert i. induction H; intros [|i] Hi; simpl in *; try discriminate.
  - injection Hi as ->. eauto.
  - eauto.
Qed.

(** One pair of the inner loop, when the first entity is active. *)
Lemma resolve_pair_passes_over (rc : float) (i j : nat) (l : list Entity) (e1 : Entity) :
  nth_error l i = Some e1 -> active e1 = true ->
  Forall2 passed_over l (resolve_pair rc i l j).
Proof.
  intros Hi Ha. unfold resolve_pair. rewrite Hi.
  destruct (nth_error l j) as [e2|] eqn:Hj;
    [|apply Forall2_refl_on, passed_over_refl].
  destruct (active e2) eqn:Ha2; cbn [negb];
    [|apply Forall2_refl_on, passed_over_refl].
  destruct (_ <? _); [apply Forall2_refl_on, passed_over_refl|].
  destruct (handle_collision_same_body e1 e2 rc) as [S1 S2].
  destruct (_handle_collision e1 e2 rc) as [e1' e2']. cbn [fst snd] in S1, S2.
  apply Forall2_trans_on with (l2 := store i e1' l); [apply passed_over_trans| |].
  - apply Forall2_store with (e := e1); [apply passed_over_refl|exact Hi|].
    split; [exact S1|congruence].
  - pose proof (nth_error_store l i j e1 e1' Hi) as Hn.
    destruct (Nat.eqb i j) eqn:Hij.
    + apply Nat.eqb_eq in Hij. subst j.
      assert (e2 = e1) by congruence. subst e2.
      apply Forall2_store with (e := e1'); [apply passed_over_refl|exact Hn|].
      split.
      * eapply same_body_trans; [apply same_body_sym; exact S1|exact S2].
      * destruct S1 as (_ & _ & A & _). congruence.
    + rewrite Hj in Hn.
      apply Forall2_store with (e := e2); [apply passed_over_refl|exact Hn|].
      split; [exact S2|congruence].
Qed.

Lemma resolve_from_passes_over (rc : float) (n i : nat) (l : list Entity) :
  Forall2 passed_over l (resolve_from rc n l i).
Proof.
  unfold resolve_from.
  destruct (nth_error l i) as [e1|] eqn:Hi;
    [|apply Forall2_refl_on, passed_over_refl].
  destruct (active e1) eqn:Ha; cbn [negb];
    [|apply Forall2_refl_on, passed_over_refl].
  assert (G : forall js l', Forall2 passed_over l l' ->
                Forall2 passed_over l (fold_left (resolve_pair rc i) js l')).
  { induction js as [|j js IH]; intros l' Hl'; [exact Hl'|]. simpl.
    apply IH.
    destruct (Forall2_nth_error_l _ _ _ _ _ Hl' Hi) as (e1' & Hi' & [S _]).
    apply Forall2_trans_on with (l2 := l'); [apply passed_over_trans|exact Hl'|].
    apply resolve_pair_passes_over with (e1 := e1'); [exact Hi'|].
    destruct S as (_ & _ & A & _). congruence. }
  apply G, Forall2_refl_on, passed_over_refl.
Qed.

(** X10: A pass of [resolve_collisions] keeps the number of entities and, of
    every entity, the mass, the rotation, the radius and the active
    flag; an inactive entity is returned exactly as it was. *)
Theorem resolve_collisions_frame (entities : list Entity) (response_coef : float) :
  length (resolve_collisions entities response_coef) = length entities
  /\ Forall2 passed_over entities (resolve_collisions entities response_coef).
Proof.
  assert (G : forall n idx l', Forall2 passed_over entities l' ->
                Forall2 passed_over entities
                        (fold_left (resolve_from response_coef n) idx l')).
  { intros n. induction idx as [|i idx IH]; intros l' Hl'; [exact Hl'|]. simpl.
    apply IH.
    apply Forall2_trans_on with (l2 := l'); [apply passed_over_trans|exact Hl'|].
    apply resolve_from_passes_over. }
  assert (F : Forall2 passed_over entities (resolve_collisions entities response_coef)).
  { apply G, Forall2_refl_on, passed_over_refl. }
  split; [symmetry; eapply Forall2_length; exact F|exact F].
Qed.

(** *** A scene without overlaps *)

Lemma resolve_pair_apart (rc : float) (i j : nat) (l : list Entity) :
  (forall e1 e2, nth_error l i = Some e1 -> nth_error l j = Some e2 ->
                 apart e1 e2 = true) ->
  resolve_pair rc i l j = l.
Proof.
  intros Hap. unfold resolve_pair.
  destruct (nth_error l i) as [e1|]; [|reflexivity].
  destruct (nth_error l j) as [e2|]; [|reflexivity].
  specialize (Hap e1 e2 eq_refl eq_refl).
  unfold apart, center_distance_sq in Hap. cbv zeta in Hap. rewrite Hap.
  destruct (negb (active e2)); reflexivity.
Qed.

(** X11: When the test of the pass finds every pair [i < j] apart, the pass
    returns the entities exactly as they were.  (The empty list and a
    list of one entity have no pair.) *)
Theorem resolve_collisions_without_overlap
  (entities : list Entity) (response_coef : float) :
  (forall i j e1 e2, (i < j)%nat ->
     nth_error entities i = Some e1 -> nth_error entities j = Some e2 ->
     apart e1 e2 = true) ->
  resolve_collisions entities response_coef = entities.
Proof.
  intros Hap. unfold resolve_collisions.
  assert (Hfrom : forall n i, resolve_from response_coef n entities i = entities).
  { intros n i. unfold resolve_from.
    destruct (nth_error entities i) as [e1|] eqn:Hi; [|reflexivity].
    destruct (negb (active e1)); [reflexivity|].
    generalize (n - (i + 1))%nat. intros k.
    assert (G : forall k0 s, (i < s)%nat ->
                  fold_left (resolve_pair response_coef i) (seq s k0) entities
                  = entities).
    { induction k0 as [|k0 IH]; intros s Hs; [reflexivity|]. simpl.
      rewrite resolve_pair_apart; [apply IH; lia|].
      intros a b Ha Hb. apply (Hap i s); assumption. }
    apply G. lia. }
  cbv zeta. generalize (seq 0 (length entities)). intros idx.
  induction idx as [|i idx IH]; [reflexivity|]. simpl.
  rewrite Hfrom. exact IH.
Qed.

Lemma resolve_collisions_without_overlap_witness :
  resolve_collisions [mkEntity 0 0 1 0 1 0 true 1; mkEntity 10 0 (-1) 0 1 0 true 1] 0.8
  = [mkEntity 0 0 1 0 1 0 true 1; mkEntity 10 0 (-1) 0 1 0 true 1].
Proof.
  apply resolve_collisions_without_overlap.
  intros [|[|i]] [|[|[|j]]] e1 e2 Hij H1 H2; simpl in H1, H2;
    try lia; try discriminate.
  injection H1 as <-. injection H2 as <-. reflexivity.
Defined.

End CollisionPass.

(** ** Integration and wrapping of rigid bodies *)

Section RigidBodies.
Import Rigidbody.
Open Scope float_scope.

Lemma update_position_passes_over (dt : float) (e : Entity) :
  passed_over e (update_position dt e).
Proof.
  unfold update_position, passed_over, same_body.
  destruct (active e) eqn:Ha; cbn; rewrite ?Ha; repeat split; discriminate.
Qed.

Lemma update_referenced_at (dt : float) (heap : list Entity) (r address : nat)
      (e : Entity) :
  nth_error heap address = Some e ->
  nth_error (update_referenced dt heap r) address
  = Some (if Nat.eqb r address then update_position dt e else e).
Proof.
  intros He. unfold update_referenced.
  destruct (nth_error heap r) as [er|] eqn:Hr.
  - change (assign r (update_position dt er) heap)
      with (Collision.store r (update_position dt er) heap).
    rewrite (nth_error_store heap r address er _ Hr).
    destruct (Nat.eqb r address) eqn:E; [|exact He].
    apply Nat.eqb_eq in E. subst r. congruence.
  - destruct (Nat.eqb r address) eqn:E; [|exact He].
    apply Nat.eqb_eq in E. subst r. congruence.
Qed.

Lemma update_referenced_passes_over (dt : float) (heap : list Entity) (r : nat) :
  Forall2 passed_over heap (update_referenced dt heap r).
Proof.
  unfold update_referenced.
  destruct (nth_error heap r) as [er|] eqn:Hr.
  - change (assign r (update_position dt er) heap)
      with (Collision.store r (update_position dt er) heap).
    apply Forall2_store with (e := er);
      [apply passed_over_refl|exact Hr|apply update_position_passes_over].
  - apply Forall2_refl_on, passed_over_refl.
Qed.

(** X12: [update_positions] updates the entity objects in place, once
    for each time the list holds them: after the call the object at an
    address is its state before the call put through the update as
    many times as the address occurs in the list (not at all when the
    list does not hold it, twice when it holds it twice).  No object is
    created or lost, and of every object the mass, the rotation, the
    radius and the active flag are kept; an inactive one is left
    exactly as it was. *)
Theorem update_positions_frame (heap : list Entity) (entities : list nat) (dt : float) :
  length (update_positions heap entities dt) = length heap
  /\ Forall2 passed_over heap (update_positions heap entities dt)
  /\ (forall address e,
        nth_error heap address = Some e ->
        nth_error (update_positions heap entities dt) address
        = Some (Nat.iter (count_occ Nat.eq_dec entities address)
                         (update_position dt) e)).
Proof.
  assert (F : Forall2 passed_over heap (update_positions heap entities dt)).
  { unfold update_positions.
    assert (G : forall h, Forall2 passed_over heap h ->
                  Forall2 passed_over heap (fold_left (update_referenced dt) entities h)).
    { induction entities as [|r rest IH]; intros h Hh; [exact Hh|]. simpl.
      apply IH.
      apply Forall2_trans_on with (l2 := h); [apply passed_over_trans|exact Hh|].
      apply update_referenced_passes_over. }
    apply G, Forall2_refl_on, passed_over_refl. }
  split; [symmetry; eapply Forall2_length; exact F|]. split; [exact F|].
  clear F. unfold update_positions. revert heap.
  induction entities as [|r rest IH]; intros heap address e He; [exact He|].
  simpl fold_left.
  rewrite (IH _ address _ (update_referenced_at dt heap r address e He)).
  simpl count_occ.
  destruct (Nat.eq_dec r address) as [->|Hne].
  - rewrite Nat.eqb_refl. rewrite Nat.iter_succ_r. reflexivity.
  - apply Nat.eqb_neq in Hne. rewrite Hne. reflexivity.
Qed.

Lemma wrap_up_not_negative (fuel : nat) (r r' : float) :
  wrap_up fuel r = Some r' -> (r' <? 0) = false.
Proof.
  revert r. induction fuel as [|fuel IH]; intros r; simpl;
    destruct (r <? 0) eqn:Hr; try discriminate.
  - intros E. injection E as <-. exact Hr.
  - apply IH.
  - intros E. injection E as <-. exact Hr.
Qed.

Lemma wrap_down_below_two_pi (fuel : nat) (r r' : float) :
  wrap_down fuel r = Some r' -> (two_pi <=? r') = false.
Proof.
  revert r. induction fuel as [|fuel IH]; intros r; simpl;
    destruct (two_pi <=? r) eqn:Hr; try discriminate.
  - intros E. injection E as <-. exact Hr.
  - apply IH.
  - intros E. injection E as <-. exact Hr.
Qed.

(** X13: Whenever [apply_torque] returns for an entity of non-zero mass, the
    rotation it leaves is not negative; and it is below [2*M_PI] as
    well when the first loop ended on a non-negative value (the second
    loop then has nothing to do).  Everything but the rotation is
    kept. *)
Theorem apply_torque_postcondition
  (fuel : nat) (e e' : Entity) (torque : float) :
  (mass e =? 0) = false ->
  apply_torque fuel e torque = Some e' ->
  (rotation e' <? 0) = false
  /\ e' = set_rotation e (rotation e')
  /\ (forall r, wrap_down fuel (rotation e + torque / mass e) = Some r ->
                (r <? 0) = false ->
                rotation e' = r /\ (two_pi <=? rotation e') = false).
Proof.
  intros Hm. unfold apply_torque. rewrite Hm.
  destruct (wrap_down fuel _) as [r1|] eqn:Hd; [|discriminate].
  destruct (wrap_up fuel r1) as [r2|] eqn:Hu; [|discriminate].
  intros E. injection E as <-. cbn [rotation set_rotation].
  split; [eapply wrap_up_not_negative; exact Hu|].
  split; [reflexivity|].
  intros r Er Hr. injection Er as <-.
  assert (r2 = r1).
  { destruct fuel; simpl in Hu; rewrite Hr in Hu; congruence. }
  subst r2. split; [reflexivity|]. eapply wrap_down_below_two_pi; exact Hd.
Qed.

(** The theorem at rotation 6, mass 1 and torque 1: the sum 7 is wrapped
    to [7 - 2*M_PI]. *)
Lemma apply_torque_postcondition_witness :
  (7 - two_pi <? 0) = false
  /\ mkEntity 0 0 0 0 1 (7 - two_pi) true 0
     = set_rotation (mkEntity 0 0 0 0 1 6 true 0) (7 - two_pi)
  /\ (forall r, wrap_down 3 (6 + 1 / 1) = Some r -> (r <? 0) = false ->
                7 - two_pi = r /\ (two_pi <=? 7 - two_pi) = false).
Proof.
  exact (apply_torque_postcondition 3 (mkEntity 0 0 0 0 1 6 true 0)
           (mkEntity 0 0 0 0 1 (7 - two_pi) true 0) 1 eq_refl eq_refl).
Defined.

End RigidBodies.

(** ** Scaling by one *)

Section ScalingByOne.
Open Scope float_scope.

(** X14: Multiplying by the scalar 1.0 returns the operand bit for bit
    when none of its components is a NaN (infinities, signed zeros and
    subnormal numbers included): vectors of the fast draft, 16-cell
    matrices and quaternions.  A NaN component comes back as a NaN,
    which the hardware may have quieted: that case is left out. *)
Theorem scaling_by_one_is_identity
  (a2 : Vec2.t) (a3 : Vec3.t) (a4 : Vec4.t)
  (v2 : Vector2.t) (v3 : Vector3.t) (v4 : Vector4.t)
  (M : list float) (q : Quaternion.t float) :
  length M = 16%nat ->
  numbers [Vec2.x a2; Vec2.y a2; Vec3.x a3; Vec3.y a3; Vec3.z a3;
           Vec4.x a4; Vec4.y a4; Vec4.z a4; Vec4.w a4;
           Vector2.x v2; Vector2.y v2; Vector3.x v3; Vector3.y v3; Vector3.z v3;
           Vector4.x v4; Vector4.y v4; Vector4.z v4; Vector4.w v4;
           Quaternion.x q; Quaternion.y q; Quaternion.z q; Quaternion.w q] ->
  numbers M ->
  (Fast.vec2_mul a2 1 = a2 /\ Fast.vec3_mul a3 1 = a3 /\ Fast.vec4_mul a4 1 = a4)
  /\ (Fast.Vector2.__mul__ v2 1 = v2
      /\ Fast.Vector3.__mul__ v3 (Number 1) = Returned v3
      /\ Fast.Vector4.__mul__ v4 (Number 1) = Returned v4)
  /\ Matrix.__mul__ M (Number 1%float) = Returned M
  /\ Quaternion.__mul__ q (Number 1%float) = Returned q.
Proof.
  intros HM _ _.
  unfold Fast.vec2_mul, Fast.vec3_mul, Fast.vec4_mul, Fast.Vector2.__mul__,
    Fast.Vector3.__mul__, Fast.Vector4.__mul__, Quaternion.__mul__.
  cbn [smul binary64]. rewrite !mul_one_r.
  destruct a2, a3, a4, v2, v3, v4, q. repeat split.
  unfold Matrix.__mul__. f_equal.
  destruct (list16 M HM) as
    (c0&c1&c2&c3&c4&c5&c6&c7&c8&c9&c10&c11&c12&c13&c14&c15&->).
  cbv [Matrix.mul_scalar Matrix.new_Matrix4 Matrix.set Matrix.get fold_left seq nth
       smul binary64].
  rewrite !mul_one_r. reflexivity.
Qed.

(** The theorem at operands that hold an infinity, a negative zero and
    the smallest subnormal number. *)
Lemma scaling_by_one_is_identity_witness :
  (Fast.vec2_mul (Vec2.mk 3 0x1p-1074) 1 = Vec2.mk 3 0x1p-1074
   /\ Fast.vec3_mul (Vec3.mk 3 (-0) infinity) 1 = Vec3.mk 3 (-0) infinity
   /\ Fast.vec4_mul (Vec4.mk 1 2 3 4) 1 = Vec4.mk 1 2 3 4)
  /\ (Fast.Vector2.__mul__ (Vector2.mk 0.1 0.2) 1 = Vector2.mk 0.1 0.2
      /\ Fast.Vector3.__mul__ (Vector3.mk 1 2 3) (Number 1) = Returned (Vector3.mk 1 2 3)
      /\ Fast.Vector4.__mul__ (Vector4.mk 1 2 3 4) (Number 1)
         = Returned (Vector4.mk 1 2 3 4))
  /\ Matrix.__mul__ [0.1; 2; 3; 4; 5; 6; 7; 8; 9; 10; 11; 12; 13; 14; 15; 16]
                    (Number 1%float)
     = Returned [0.1; 2; 3; 4; 5; 6; 7; 8; 9; 10; 11; 12; 13; 14; 15; 16]
  /\ Quaternion.__mul__ (Quaternion.mk 0.1 0.2 0.3 0.4) (Number 1%float)
     = Returned (Quaternion.mk 0.1 0.2 0.3 0.4).
Proof.
  apply (scaling_by_one_is_identity
           (Vec2.mk 3 0x1p-1074) (Vec3.mk 3 (-0) infinity) (Vec4.mk 1 2 3 4)
           (Vector2.mk 0.1 0.2) (Vector3.mk 1 2 3) (Vector4.mk 1 2 3 4)
           [0.1; 2; 3; 4; 5; 6; 7; 8; 9; 10; 11; 12; 13; 14; 15; 16]
           (Quaternion.mk 0.1 0.2 0.3 0.4) eq_refl);
    repeat (constructor; [reflexivity|]); constructor.
Defined.

End ScalingByOne.

(** ** Matrix4 on doubles *)

Section MatrixOnDoubles.
Open Scope float_scope.

(** Unfolds the loops of the matrix code down to the cells. *)
Ltac cells :=
  cbv [Matrix.mul_matrix Matrix.mul_cell Matrix.mul_scalar Matrix.transpose
       Matrix.copy Matrix.identity Matrix.translation Matrix.scaling
       Matrix.transform_vector4 Matrix.new_Matrix4 Matrix.set Matrix.get
       fold_left seq nth Nat.mul Nat.add
       Matrix.M00 Matrix.M01 Matrix.M02 Matrix.M03 Matrix.M10 Matrix.M11 Matrix.M12
       Matrix.M13 Matrix.M20 Matrix.M21 Matrix.M22 Matrix.M23 Matrix.M30 Matrix.M31
       Matrix.M32 Matrix.M33].

(** X15: [transpose] and [copy] always return 16 cells; on a matrix of 16
    cells, over any arithmetic, [copy] returns the same cells, the cell
    [(i, j)] of the transpose is the cell [(j, i)], and transposing
    twice gives the matrix back. *)
Theorem transpose_and_copy {F : Type} `{Scalar F} (M : list F) :
  length M = 16%nat ->
  Matrix.copy M = M
  /\ length (Matrix.transpose M) = 16%nat
  /\ (forall i j, (i < 4)%nat -> (j < 4)%nat ->
        Matrix.get (Matrix.transpose M) (i * 4 + j) = Matrix.get M (j * 4 + i))
  /\ Matrix.transpose (Matrix.transpose M) = M.
Proof.
  intros HM.
  destruct (list16 M HM) as
    (c0&c1&c2&c3&c4&c5&c6&c7&c8&c9&c10&c11&c12&c13&c14&c15&->).
  split; [reflexivity|]. split; [reflexivity|]. split; [|reflexivity].
  intros i j Hi Hj.
  do 4 (destruct i as [|i]; [do 4 (destruct j as [|j]; [reflexivity|]); lia|]).
  lia.
Qed.

Lemma transpose_and_copy_witness :
  let M := [1; 2; 3; 4;  5; 6; 7; 8;  9; 10; 11; 12;  13; 14; 15; 16] in
  Matrix.copy M = M
  /\ length (Matrix.transpose M) = 16%nat
  /\ (forall i j, (i < 4)%nat -> (j < 4)%nat ->
        Matrix.get (Matrix.transpose M) (i * 4 + j) = Matrix.get M (j * 4 + i))
  /\ Matrix.transpose (Matrix.transpose M) = M.
Proof.
  exact (transpose_and_copy
           [1; 2; 3; 4;  5; 6; 7; 8;  9; 10; 11; 12;  13; 14; 15; 16] eq_refl).
Defined.




Lemma is_zero_0 : is_zero 0 = true.
Proof. reflexivity. Qed.

(** Proves [same_value (0 + t0 + t1 + t2 + t3) m], where one of the
    products is [m] and the others are products by zero. *)
Ltac neutral_cell :=
  rewrite ?mul_one_l, ?mul_one_r;
  repeat first
    [ apply same_value_add_zero;
      [|first [apply mul_zero_l; assumption | apply mul_zero_r; assumption]]
    | apply zero_add;
      repeat first
        [ exact is_zero_0
        | apply mul_zero_l; assumption
        | apply mul_zero_r; assumption
        | apply add_zeros ] ].

(** X17: On doubles the identity matrix is neutral for the product of
    matrices with finite cells, up to the sign of zero: each cell of
    [identity * M] and of [M * identity] is the cell of [M], or both are
    zeros (a cell [-0.0] comes back as [+0.0]), so the cells compare
    equal with [==]. *)
Theorem identity_is_neutral_on_doubles (M : list float) :
  length M = 16%nat ->
  Forall (fun c => is_finite c = true) M ->
  Forall2 same_value (Matrix.mul_matrix Matrix.identity M) M
  /\ Forall2 same_value (Matrix.mul_matrix M Matrix.identity) M
  /\ Forall2 (fun a b => (a =? b) = true) (Matrix.mul_matrix Matrix.identity M) M.
Proof.
  intros HM Hfin.
  destruct (list16 M HM) as
    (c0&c1&c2&c3&c4&c5&c6&c7&c8&c9&c10&c11&c12&c13&c14&c15&->).
  repeat match goal with
         | H : Forall _ (_ :: _) |- _ => inversion H as [|? ? ? ?]; subst; clear H
         | H : Forall _ [] |- _ => clear H
         end.
  assert (Hl : Forall2 same_value
                 (Matrix.mul_matrix Matrix.identity
                    [c0; c1; c2; c3; c4; c5; c6; c7; c8; c9; c10; c11; c12; c13; c14; c15])
                 [c0; c1; c2; c3; c4; c5; c6; c7; c8; c9; c10; c11; c12; c13; c14; c15]).
  { cells. cbv [sadd smul s0 s1 binary64].
    repeat (constructor; [neutral_cell|]). constructor. }
  split; [exact Hl|]. split.
  - cells. cbv [sadd smul s0 s1 binary64].
    repeat (constructor; [neutral_cell|]). constructor.
  - revert Hl. cells. cbv [sadd smul s0 s1 binary64]. intros Hl.
    repeat match goal with
           | H : Forall2 _ (_ :: _) (_ :: _) |- _ =>
               inversion H as [|? ? ? ? ? ?]; subst; clear H
           end.
    repeat (constructor;
            [apply same_value_eqb; [assumption|];
             match goal with
             | H : is_finite ?c = true |- is_nan ?c = false =>
                 unfold is_finite in H; destruct (is_nan c); [discriminate H|reflexivity]
             end|]).
    constructor.
Qed.

Lemma identity_is_neutral_on_doubles_witness :
  let M := [0.1; -0; 3; 4;  5; 6; 7; 8;  9; 10; 11; 12;  13; 14; 15; 16] in
  Forall2 same_value (Matrix.mul_matrix Matrix.identity M) M
  /\ Forall2 same_value (Matrix.mul_matrix M Matrix.identity) M
  /\ Forall2 (fun a b => (a =? b) = true) (Matrix.mul_matrix Matrix.identity M) M.
Proof.
  apply (identity_is_neutral_on_doubles
           [0.1; -0; 3; 4;  5; 6; 7; 8;  9; 10; 11; 12;  13; 14; 15; 16] eq_refl).
  repeat (constructor; [reflexivity|]). constructor.
Defined.

End MatrixOnDoubles.

(** ** Transforming points *)

Section TransformPoint.
Open Scope float_scope.

Lemma affine_w (vx vy vz : float) :
  is_finite vx = true -> is_finite vy = true -> is_finite vz = true ->
  0 * vx + 0 * vy + 0 * vz + 1 = 1.
Proof.
  intros Hx Hy Hz.
  destruct (zero_add (0 * vx + 0 * vy + 0 * vz) 1) as [E|[_ E]].
  - repeat apply add_zeros; apply mul_zero_l; assumption.
  - exact E.
  - discriminate E.
Qed.

(** X18: On doubles, for a matrix whose last row is (0, 0, 0, 1) and a
    point with finite coordinates, [transform_vector3] divides by
    nothing and returns, bit for bit, the first three fields that
    [transform_vector4] returns for the point with w = 1, whose fourth
    field is 1. *)
Theorem transform_vector3_of_affine (M : list float) (vx vy vz : float) :
  Matrix.get M Matrix.M30 = 0 -> Matrix.get M Matrix.M31 = 0 ->
  Matrix.get M Matrix.M32 = 0 -> Matrix.get M Matrix.M33 = 1 ->
  is_finite vx = true -> is_finite vy = true -> is_finite vz = true ->
  let '(x, y, z) := MatrixDouble.transform_vector3 M (vx, vy, vz) in
  Matrix.transform_vector4 M (vx, vy, vz, 1) = (x, y, z, 1).
Proof.
  intros H30 H31 H32 H33 Hx Hy Hz.
  unfold MatrixDouble.transform_vector3, Matrix.transform_vector4.
  cbv beta iota zeta. rewrite H30, H31, H32, H33.
  cbv [sadd smul binary64].
  rewrite !mul_one_r, (affine_w vx vy vz Hx Hy Hz).
  reflexivity.
Qed.

(** The theorem at the translation by (1, 2, 3) and the point
    (0.1, 0.2, 0.3). *)
Lemma transform_vector3_of_affine_witness :
  let '(x, y, z) :=
    MatrixDouble.transform_vector3
      [1; 0; 0; 1;  0; 1; 0; 2;  0; 0; 1; 3;  0; 0; 0; 1] (0.1, 0.2, 0.3) in
  Matrix.transform_vector4
    [1; 0; 0; 1;  0; 1; 0; 2;  0; 0; 1; 3;  0; 0; 0; 1] (0.1, 0.2, 0.3, 1)
  = (x, y, z, 1).
Proof.
  exact (transform_vector3_of_affine
           [1; 0; 0; 1;  0; 1; 0; 2;  0; 0; 1; 3;  0; 0; 0; 1] 0.1 0.2 0.3
           eq_refl eq_refl eq_refl eq_refl eq_refl eq_refl eq_refl).
Defined.

End TransformPoint.

(** ** Translations and scalings on doubles *)

Section TranslationsAndScalings.
Open Scope float_scope.

(** X21: On doubles, the inverse of a translation by finite offsets is
    the translation by the opposite offsets, up to the sign of zero in
    each cell, and it is an inverse on the left as well: multiplied by
    the translation it gives the identity, up to the sign of zero. *)
Theorem inverse_of_a_translation (x y z : float) :
  is_finite x = true -> is_finite y = true -> is_finite z = true ->
  exists Minv,
    Matrix.inverse (Matrix.translation x y z) = inr Minv
    /\ Forall2 same_value Minv (Matrix.translation (- x) (- y) (- z))
    /\ Forall2 same_value (Matrix.mul_matrix Minv (Matrix.translation x y z))
               Matrix.identity.
Proof.
  intros Hx Hy Hz.
  destruct (inverse_of_translation x y z Hx Hy Hz) as (Minv & Hinv & Hshape).
  exists Minv. split; [exact Hinv|]. split; [exact Hshape|].
  apply (translation_times_inverse x y z Minv Hx Hy Hz Hshape).
Qed.

(** The theorem at the translation by (0.1, -2.5, 1e300). *)
Lemma inverse_of_a_translation_witness :
  exists Minv,
    Matrix.inverse (Matrix.translation 0.1 (-2.5) 1e300) = inr Minv
    /\ Forall2 same_value Minv (Matrix.translation (- 0.1) (- (-2.5)) (- 1e300))
    /\ Forall2 same_value
               (Matrix.mul_matrix Minv (Matrix.translation 0.1 (-2.5) 1e300))
               Matrix.identity.
Proof.
  exact (inverse_of_a_translation 0.1 (-2.5) 1e300 eq_refl eq_refl eq_refl).
Defined.

(** X22: On doubles, for finite offsets, factors and coordinates, and up
    to the sign of zero in each field: the identity matrix transforms a
    vector into itself, a translation moves a point (w = 1) by its
    offsets and leaves a direction (w = 0) alone, and a scaling
    multiplies the coordinates by its factors and keeps w. *)
Theorem transforming_finite_vectors (a b c vx vy vz vw : float) :
  is_finite a = true -> is_finite b = true -> is_finite c = true ->
  is_finite vx = true -> is_finite vy = true -> is_finite vz = true ->
  is_finite vw = true ->
  same_vector4 (Matrix.transform_vector4 Matrix.identity (vx, vy, vz, vw))
               (vx, vy, vz, vw)
  /\ same_vector4 (Matrix.transform_vector4 (Matrix.translation a b c) (vx, vy, vz, 1))
                  (vx + a, vy + b, vz + c, 1)
  /\ same_vector4 (Matrix.transform_vector4 (Matrix.translation a b c) (vx, vy, vz, 0))
                  (vx, vy, vz, 0)
  /\ same_vector4 (Matrix.transform_vector4 (Matrix.scaling a b c) (vx, vy, vz, vw))
                  (a * vx, b * vy, c * vz, vw).
Proof.
  intros Ha Hb Hc Hx Hy Hz Hw.
  finite_rules a Ha. finite_rules b Hb. finite_rules c Hc.
  finite_rules vx Hx. finite_rules vy Hy. finite_rules vz Hz. finite_rules vw Hw.
  unfold same_vector4. matrix_cells.
  repeat match goal with |- _ /\ _ => split end; zero_one; reflexivity.
Qed.

(** The theorem at the offsets (1, 2, 3) and the vector
    (0.1, -0.0, 0.3, 0.4). *)
Lemma transforming_finite_vectors_witness :
  same_vector4 (Matrix.transform_vector4 Matrix.identity (0.1, -0, 0.3, 0.4))
               (0.1, -0, 0.3, 0.4)
  /\ same_vector4 (Matrix.transform_vector4 (Matrix.translation 1 2 3) (0.1, -0, 0.3, 1))
                  (0.1 + 1, -0 + 2, 0.3 + 3, 1)
  /\ same_vector4 (Matrix.transform_vector4 (Matrix.translation 1 2 3) (0.1, -0, 0.3, 0))
                  (0.1, -0, 0.3, 0)
  /\ same_vector4 (Matrix.transform_vector4 (Matrix.scaling 1 2 3) (0.1, -0, 0.3, 0.4))
                  (1 * 0.1, 2 * -0, 3 * 0.3, 0.4).
Proof.
  exact (transforming_finite_vectors 1 2 3 0.1 (-0) 0.3 0.4
           eq_refl eq_refl eq_refl eq_refl eq_refl eq_refl eq_refl).
Defined.

(** X23: On doubles, for finite offsets and factors, and up to the sign
    of zero in each cell: the product of two translations is the
    translation by the sums of the offsets, and the product of two
    scalings the scaling by the products of the factors.  The
    determinant of a translation is exactly 1, and that of a scaling by
    (a, b, c) is [a * (b * c)], rounded as the code rounds it. *)
Theorem composing_translations_and_scalings (a b c x y z : float) :
  is_finite a = true -> is_finite b = true -> is_finite c = true ->
  is_finite x = true -> is_finite y = true -> is_finite z = true ->
  Forall2 same_value
          (Matrix.mul_matrix (Matrix.translation a b c) (Matrix.translation x y z))
          (Matrix.translation (x + a) (y + b) (z + c))
  /\ Forall2 same_value
             (Matrix.mul_matrix (Matrix.scaling a b c) (Matrix.scaling x y z))
             (Matrix.scaling (a * x) (b * y) (c * z))
  /\ Matrix.determinant (Matrix.translation a b c) = 1
  /\ same_value (Matrix.determinant (Matrix.scaling a b c)) (a * (b * c)).
Proof.
  intros Ha Hb Hc Hx Hy Hz.
  split; [|split; [|split]].
  - finite_rules a Ha. finite_rules b Hb. finite_rules c Hc.
    finite_rules x Hx. finite_rules y Hy. finite_rules z Hz.
    matrix_cells. repeat (constructor; [zero_one; reflexivity|]). constructor.
  - finite_rules a Ha. finite_rules b Hb. finite_rules c Hc.
    finite_rules x Hx. finite_rules y Hy. finite_rules z Hz.
    matrix_cells. repeat (constructor; [zero_one; reflexivity|]). constructor.
  - apply determinant_of_translation; assumption.
  - finite_rules a Ha. finite_rules b Hb. finite_rules c Hc.
    matrix_cells. zero_one. reflexivity.
Qed.

(** The theorem at (0.1, 0.2, 0.3) and (1, -2, 4). *)
Lemma composing_translations_and_scalings_witness :
  Forall2 same_value
          (Matrix.mul_matrix (Matrix.translation 0.1 0.2 0.3)
                             (Matrix.translation 1 (-2) 4))
          (Matrix.translation (1 + 0.1) (-2 + 0.2) (4 + 0.3))
  /\ Forall2 same_value
             (Matrix.mul_matrix (Matrix.scaling 0.1 0.2 0.3) (Matrix.scaling 1 (-2) 4))
             (Matrix.scaling (0.1 * 1) (0.2 * -2) (0.3 * 4))
  /\ Matrix.determinant (Matrix.translation 0.1 0.2 0.3) = 1
  /\ same_value (Matrix.determinant (Matrix.scaling 0.1 0.2 0.3)) (0.1 * (0.2 * 0.3)).
Proof.
  exact (composing_translations_and_scalings 0.1 0.2 0.3 1 (-2) 4
           eq_refl eq_refl eq_refl eq_refl eq_refl eq_refl).
Defined.

End TranslationsAndScalings.

(** ** Quaternions on doubles *)

Section QuaternionOnDoubles.
Open Scope float_scope.

(** X24: On doubles, conjugating twice gives the quaternion back bit for
    bit, the conjugate has the same [length], and [copy] returns the
    same four fields. *)
Theorem conjugate_is_an_involution (q : Quaternion.t float) :
  Quaternion.conjugate (Quaternion.conjugate q) = q
  /\ Quaternion.length (Quaternion.conjugate q) = Quaternion.length q
  /\ Quaternion.copy q = q.
Proof.
  destruct q as [qx qy qz qw].
  unfold Quaternion.conjugate, Quaternion.length, Quaternion.copy.
  cbn [Quaternion.x Quaternion.y Quaternion.z Quaternion.w sopp smul sadd binary64].
  rewrite !opp_involutive, !mul_opp_opp. repeat split.
Qed.

(** X25: [__eq__] on doubles: it is symmetric, [False] against a number or
    any other object, and [True] of a quaternion with finite fields and
    itself. *)
Theorem quaternion_eq_laws (p q : Quaternion.t float) (k : float) :
  Quaternion.__eq__ p (Same q) = Quaternion.__eq__ q (Same p)
  /\ Quaternion.__eq__ p (Number k) = false
  /\ Quaternion.__eq__ p Other = false
  /\ (is_finite (Quaternion.x p) = true -> is_finite (Quaternion.y p) = true ->
      is_finite (Quaternion.z p) = true -> is_finite (Quaternion.w p) = true ->
      Quaternion.__eq__ p (Same p) = true).
Proof.
  destruct p as [px py pz pw], q as [qx qy qz qw].
  unfold Quaternion.__eq__.
  cbn [Quaternion.x Quaternion.y Quaternion.z Quaternion.w
       ssub sabs sltb lit_1em9 binary64 binary64_ext].
  split; [|split; [reflexivity|split; [reflexivity|]]].
  - now rewrite (abs_sub_sym px qx), (abs_sub_sym py qy),
      (abs_sub_sym pz qz), (abs_sub_sym pw qw).
  - intros Hx Hy Hz Hw.
    rewrite (sub_diag px Hx), (sub_diag py Hy), (sub_diag pz Hz), (sub_diag pw Hw).
    reflexivity.
Qed.

Lemma quaternion_eq_laws_witness :
  Quaternion.__eq__ (Quaternion.mk 0.1 0.2 0.3 0.4)
                    (Same (Quaternion.mk 0.1 0.2 0.3 0.4)) = true.
Proof.
  exact (proj2 (proj2 (proj2
           (quaternion_eq_laws (Quaternion.mk 0.1 0.2 0.3 0.4)
                               (Quaternion.mk 0.1 0.2 0.3 0.4) 0)))
           eq_refl eq_refl eq_refl eq_refl).
Defined.

(** X26: A quaternion too short to normalize is treated as the identity
    rotation: when [length] is below 1e-10, [normalize] returns
    (0, 0, 0, 1) and [to_rotation_matrix] the identity matrix, bit for
    bit; and when the squared length is below 1e-10, so does
    [inverse]. *)
Theorem short_quaternions_are_the_identity (q : Quaternion.t float) :
  ((Quaternion.length q <? 1e-10) = true ->
   Quaternion.normalize q = Quaternion.identity
   /\ Quaternion.to_rotation_matrix q = Matrix.identity)
  /\ ((Quaternion.x q * Quaternion.x q + Quaternion.y q * Quaternion.y q
       + Quaternion.z q * Quaternion.z q + Quaternion.w q * Quaternion.w q
       <? 1e-10) = true ->
      Quaternion.inverse q = Quaternion.identity).
Proof.
  split.
  - intros Hlen.
    assert (En : Quaternion.normalize q = Quaternion.identity).
    { unfold Quaternion.normalize.
      change (sltb (Quaternion.length q) lit_1em10)
        with (Quaternion.length q <? 1e-10).
      rewrite Hlen. reflexivity. }
    split; [exact En|].
    unfold Quaternion.to_rotation_matrix. rewrite En.
    vm_compute. reflexivity.
  - intros Hsq. unfold Quaternion.inverse.
    change (sltb ?a lit_1em10) with (a <? 1e-10).
    cbn [sadd smul binary64]. rewrite Hsq. reflexivity.
Qed.

Lemma short_quaternions_are_the_identity_witness :
  (Quaternion.normalize (Quaternion.mk 1e-11 0 0 (-1e-11)) = Quaternion.identity
   /\ Quaternion.to_rotation_matrix (Quaternion.mk 1e-11 0 0 (-1e-11))
      = Matrix.identity)
  /\ Quaternion.inverse (Quaternion.mk 1e-11 0 0 (-1e-11)) = Quaternion.identity.
Proof.
  split.
  - exact (proj1 (short_quaternions_are_the_identity
                    (Quaternion.mk 1e-11 0 0 (-1e-11))) eq_refl).
  - exact (proj2 (short_quaternions_are_the_identity
                    (Quaternion.mk 1e-11 0 0 (-1e-11))) eq_refl).
Defined.

(** X27: On doubles, the quaternion (0, 0, 0, 1) is neutral for the
    Hamilton product of [__mul__] on both sides, for every quaternion
    with finite fields and up to the sign of zero in each field. *)
Theorem identity_quaternion_is_neutral (q : Quaternion.t float) :
  is_finite (Quaternion.x q) = true -> is_finite (Quaternion.y q) = true ->
  is_finite (Quaternion.z q) = true -> is_finite (Quaternion.w q) = true ->
  let l := Quaternion.hamilton Quaternion.identity q in
  let r := Quaternion.hamilton q Quaternion.identity in
  (same_value (Quaternion.x l) (Quaternion.x q)
   /\ same_value (Quaternion.y l) (Quaternion.y q)
   /\ same_value (Quaternion.z l) (Quaternion.z q)
   /\ same_value (Quaternion.w l) (Quaternion.w q))
  /\ (same_value (Quaternion.x r) (Quaternion.x q)
      /\ same_value (Quaternion.y r) (Quaternion.y q)
      /\ same_value (Quaternion.z r) (Quaternion.z q)
      /\ same_value (Quaternion.w r) (Quaternion.w q)).
Proof.
  destruct q as [qx qy qz qw]. cbn [Quaternion.x Quaternion.y Quaternion.z Quaternion.w].
  intros Hx Hy Hz Hw.
  finite_rules qx Hx. finite_rules qy Hy. finite_rules qz Hz. finite_rules qw Hw.
  cbv [Quaternion.hamilton Quaternion.identity
       Quaternion.x Quaternion.y Quaternion.z Quaternion.w
       sadd ssub smul s0 s1 binary64].
  repeat match goal with |- _ /\ _ => split end; zero_one; reflexivity.
Qed.

(** The theorem at (0.1, -0.0, 0.3, 0.4). *)
Lemma identity_quaternion_is_neutral_witness :
  let q := Quaternion.mk 0.1 (-0) 0.3 0.4 in
  let l := Quaternion.hamilton Quaternion.identity q in
  let r := Quaternion.hamilton q Quaternion.identity in
  (same_value (Quaternion.x l) (Quaternion.x q)
   /\ same_value (Quaternion.y l) (Quaternion.y q)
   /\ same_value (Quaternion.z l) (Quaternion.z q)
   /\ same_value (Quaternion.w l) (Quaternion.w q))
  /\ (same_value (Quaternion.x r) (Quaternion.x q)
      /\ same_value (Quaternion.y r) (Quaternion.y q)
      /\ same_value (Quaternion.z r) (Quaternion.z q)
      /\ same_value (Quaternion.w r) (Quaternion.w q)).
Proof.
  exact (identity_quaternion_is_neutral (Quaternion.mk 0.1 (-0) 0.3 0.4)
           eq_refl eq_refl eq_refl eq_refl).
Defined.

End QuaternionOnDoubles.
